(** * BaseStrategy: a shallow embedding of [base_strategy.py]

    The strategy is a plugin of a trading-bot host.  The host objects it
    talks to ([Trade], [PairLocks], the data provider [dp], the logger, the
    superclass callbacks) are collected in a record of oracles, [host]; what
    the strategy does to them is recorded, in order, in a trace of events.
    The strategy object itself ([self]), the store of dataframe objects and
    that trace make up the [machine] on which every method runs, in a state
    and error monad.

    Python floats are IEEE 754 binary64 numbers and are modelled by Rocq's
    primitive floats; Python ints are [Z]. *)

From Stdlib Require Import ZArith List Floats Lia Bool.
From stdpp Require Import gmap strings list fin_maps.

#[local] Set Warnings "-inexact-float".
#[local] Open Scope Z_scope.

(* ===================================================================== *)
(** * Python numbers                                                      *)
(* ===================================================================== *)

Module Py.

(** The exceptions the modelled code can raise. *)
Inductive exn :=
| KeyError (key : string)
| ZeroDivisionError
| OverflowError
(** of the model only: a reference that is not in the store *)
| DanglingReference.

Inductive result (A : Type) :=
| Ok (a : A)
| Raise (e : exn).
Arguments Ok {A} a.
Arguments Raise {A} e.

Definition is_Ok {A} (r : result A) : Prop :=
  match r with Ok _ => True | Raise _ => False end.

Definition is_zero (x : float) : bool := PrimFloat.eqb x 0%float.

(** [x / y] on floats: as IEEE 754, but a zero divisor raises. *)
Definition truediv (x y : float) : result float :=
  if is_zero y then Raise ZeroDivisionError else Ok (PrimFloat.div x y).

(** [math.fabs]. *)
Definition fabs (x : float) : float := PrimFloat.abs x.

(** [x > y] and [x <= y] on floats (both false on a NaN). *)
Definition gt (x y : float) : bool := PrimFloat.ltb y x.
Definition le (x y : float) : bool := PrimFloat.leb x y.

(** The binary64 number nearest to an int, ties to even. *)
Definition nearest_float (n : Z) : float :=
  SF2Prim (binary_normalize prec emax n 0 false).

(** [float(n)] for an int [n]: the nearest float; an int too large for a
    float raises [OverflowError]. *)
Definition float_of_int (n : Z) : result float :=
  let f := nearest_float n in
  if PrimFloat.is_infinity f then Raise OverflowError else Ok f.

(** [a / b] on ints, for a divisor [b > 0]: the float nearest to the exact
    quotient, ties to even.  The quotient is cut after more than 64 binary
    digits, with one more digit that tells whether anything was cut off, and
    that number is rounded once. *)
Definition int_truediv (a b : Z) : float :=
  let k := Z.log2 b + 65 in
  let (q, r) := Z.div_eucl (Z.abs a * 2 ^ k) b in
  let m := 2 * q + (if r =? 0 then 0 else 1) in
  SF2Prim (binary_normalize prec emax (if a <? 0 then - m else m) (- (k + 1)) false).

(** [td.total_seconds()] for a [timedelta] of [us] microseconds: the int
    division [us / 10**6].  (A [timedelta] holds less than [2^67]
    microseconds, far from a quotient too large for a float.) *)
Definition total_seconds (us : Z) : float :=
  int_truediv us 1000000.

(** Comparison of a float with an int.  Python compares the two exactly,
    without rounding the int: a finite float is [m * 2^e]. *)
Definition cmp_float_int (x : float) (n : Z) : option comparison :=
  match Prim2SF x with
  | S754_nan => None
  | S754_infinity s => Some (if s then Lt else Gt)
  | S754_zero _ => Some (0 ?= n)
  | S754_finite s m e =>
      let v := if s then Z.neg m else Z.pos m in
      Some (if 0 <=? e then v * 2 ^ e ?= n else v ?= n * 2 ^ (- e))
  end.

Definition gt_int (x : float) (n : Z) : bool :=
  match cmp_float_int x n with Some Gt => true | _ => false end.

Definition eq_int (x : float) (n : Z) : bool :=
  match cmp_float_int x n with Some Eq => true | _ => false end.

(** The values a configuration entry or a host attribute may hold. *)
Inductive value :=
| VInt (n : Z)
| VFloat (x : float)
| VStr (s : string)
| VNone.

(** [isinstance(v, int)]. *)
Definition is_int (v : value) : bool :=
  match v with VInt _ => true | _ => false end.

(** [v != n] for an int [n]. *)
Definition ne_int (v : value) (n : Z) : bool :=
  match v with
  | VInt k => negb (k =? n)
  | VFloat x => negb (eq_int x n)
  | VStr _ | VNone => true
  end.

(** A number literal: an int or a float. *)
Inductive number :=
| NInt (n : Z)
| NFloat (x : float).

(** [float(v)]. *)
Definition to_float (v : number) : result float :=
  match v with
  | NInt n => float_of_int n
  | NFloat x => Ok x
  end.

(** [v < w] on numbers; a float and an int are compared exactly. *)
Definition number_lt (v w : number) : bool :=
  match v, w with
  | NInt a, NInt b => a <? b
  | NFloat x, NFloat y => PrimFloat.ltb x y
  | NFloat x, NInt b => match cmp_float_int x b with Some Lt => true | _ => false end
  | NInt a, NFloat y => match cmp_float_int y a with Some Gt => true | _ => false end
  end.

(** [x * v] and for a float [x]: an int operand is converted first. *)
Definition mul_number (x : float) (v : number) : result float :=
  match to_float v with
  | Ok y => Ok (PrimFloat.mul x y)
  | Raise e => Raise e
  end.

(** ** Dictionaries

    A [dict] keeps its items in insertion order and holds a key once.
    Assigning to a key that is present replaces the value in place;
    assigning to a new key appends the item. *)
Definition dict (V : Type) : Type := list (string * V).

Fixpoint dict_get {V} (k : string) (d : dict V) : option V :=
  match d with
  | [] => None
  | (k', v) :: d' => if String.eqb k k' then Some v else dict_get k d'
  end.

Fixpoint dict_set {V} (k : string) (v : V) (d : dict V) : dict V :=
  match d with
  | [] => [(k, v)]
  | (k', v') :: d' =>
      if String.eqb k k' then (k', v) :: d' else (k', v') :: dict_set k v d'
  end.

Definition dict_keys {V} (d : dict V) : list string := map fst d.
Definition dict_values {V} (d : dict V) : list V := map snd d.

(** [for k, v in d.items(): d[k] = f(v)], over the items still to visit. *)
Fixpoint update_items {V} (f : V -> result V) (items : list (string * V)) (d : dict V)
    : result (dict V) :=
  match items with
  | [] => Ok d
  | (k, v) :: rest =>
      match f v with
      | Ok v' => update_items f rest (dict_set k v' d)
      | Raise e => Raise e
      end
  end.

(** [min(xs)], with the first item taken: an item replaces the smallest
    one so far when it is [<] than it, which is all [min] asks of them. *)
Definition min_from (x : number) (xs : list number) : number :=
  fold_left (fun best y => if number_lt y best then y else best) xs x.

End Py.

Import Py.

(* ===================================================================== *)
(** * The host, the strategy object and the machine                       *)
(* ===================================================================== *)

(** A [Trade] row, with the attributes the strategy reads. *)
Record Trade := {
  pair : string;
  stop_loss : float;
  stop_loss_pct : float;
  initial_stop_loss_pct : float;
}.

(** [current_time], with the fields the strategy reads. *)
Record datetime := {
  minute : Z;
  second : Z;
}.

(** The host's side of the callback contract, as oracles. *)
Record host := {
  (** [Trade.get_trades_proxy(is_open=True)] *)
  get_trades_proxy_open : list Trade;
  (** [self.dp.ticker(pair)['last']] *)
  ticker_last : string -> float;
  (** [trade.calc_profit_ratio(rate)] *)
  calc_profit_ratio : Trade -> float -> float;
  (** [super().confirm_trade_exit(...)] *)
  super_confirm_trade_exit : string -> Trade -> string -> float -> float ->
                             string -> string -> datetime -> bool;
  (** [PairLocks.get_pair_longest_lock(pair)], as the formatted
      [lock_end_time] of the lock found. *)
  get_pair_longest_lock : string -> option string;
  (** [timeframe_to_minutes(tf)] *)
  timeframe_to_minutes : string -> Z;
}.

(** A dataframe: its number of rows and its columns, each a list of that
    many cells.  The dtype of a column is not modelled. *)
Record DataFrame := {
  nrows : nat;
  columns : dict (list value);
}.

(** Dataframes are objects: a variable holds a reference into the store. *)
Abbreviation ref := positive.

(** An entry of [custom_info['cache']]: [tf], [df] and [datetime].  A
    [datetime.now()] reading is a count of microseconds. *)
Record cache_entry := {
  ce_tf : string;
  ce_df : ref;
  ce_datetime : Z;
}.

(** [self].  [logger] tells whether [self.logger] is set; [cache] and
    [remove_autolock] are the two keys of [custom_info] that [bot_start]
    creates, [None] while the key is absent. *)
Record strategy := {
  logger : bool;
  min_profit : float;
  minimal_roi : dict float;
  stoploss : float;
  leverage_configuration : dict number;
  cache : option (gmap string cache_entry);
  remove_autolock : option (list string);
  config_max_trades : Z;
  enable_improved_trade_count : bool;
  max_open_trades : value;
  config : gmap string value;
}.

Definition set_cache (c : option (gmap string cache_entry)) (s : strategy) : strategy :=
  {| logger := logger s; min_profit := min_profit s; minimal_roi := minimal_roi s;
     stoploss := stoploss s; leverage_configuration := leverage_configuration s;
     cache := c; remove_autolock := remove_autolock s;
     config_max_trades := config_max_trades s;
     enable_improved_trade_count := enable_improved_trade_count s;
     max_open_trades := max_open_trades s; config := config s |}.

Definition set_remove_autolock (l : option (list string)) (s : strategy) : strategy :=
  {| logger := logger s; min_profit := min_profit s; minimal_roi := minimal_roi s;
     stoploss := stoploss s; leverage_configuration := leverage_configuration s;
     cache := cache s; remove_autolock := l;
     config_max_trades := config_max_trades s;
     enable_improved_trade_count := enable_improved_trade_count s;
     max_open_trades := max_open_trades s; config := config s |}.

Definition set_max_open_trades (v : value) (s : strategy) : strategy :=
  {| logger := logger s; min_profit := min_profit s; minimal_roi := minimal_roi s;
     stoploss := stoploss s; leverage_configuration := leverage_configuration s;
     cache := cache s; remove_autolock := remove_autolock s;
     config_max_trades := config_max_trades s;
     enable_improved_trade_count := enable_improved_trade_count s;
     max_open_trades := v; config := config s |}.

Definition set_config (c : gmap string value) (s : strategy) : strategy :=
  {| logger := logger s; min_profit := min_profit s; minimal_roi := minimal_roi s;
     stoploss := stoploss s; leverage_configuration := leverage_configuration s;
     cache := cache s; remove_autolock := remove_autolock s;
     config_max_trades := config_max_trades s;
     enable_improved_trade_count := enable_improved_trade_count s;
     max_open_trades := max_open_trades s; config := c |}.

(** The texts the strategy logs, by the f-string they come from. *)
Inductive message :=
| MsgVersion
| MsgLeverageConfiguration (cfg : dict number)
| MsgLockStillActive (pair lock : string)
| MsgRejectExit (pair exit_reason : string) (rate current_profit : float)
| MsgReturningLeverage (leverage : number) (pair side : string) (cfg : dict number)
| MsgScheduledRemoval (pair : string)
| MsgCreatedCache (key : string)
| MsgRemovingCache (key : string) (minutes : float)
| MsgChangingMaxTrades (current : value) (new config_max sl : Z)
| MsgLeavingMaxTrades (new config_max sl : Z)
| MsgStoplossDistance (pair : string) (current_rate sl sl_pct dist ratio : float)
| MsgStoplossActive (pair : string).

(** What the strategy does to the host.  A method of the host called on
    [self] is recorded with [self] as it is at the call.  [LoggerCall]
    stands for [self.logger.<method>(timedmsg)]; the UTC time that prefixes
    [timedmsg] is left out. *)
Inductive event :=
| LoggerCall (method : string) (msg : message)
| SendMsg (msg : message)
| UnlockReason (this : strategy) (reason : string)
| SuperBotStart (this : strategy)
| SuperBotLoopStart (this : strategy) (current_time : datetime).

Record machine := {
  self : strategy;
  heap : gmap ref DataFrame;
  trace : list event;
}.

(** ** The monad of methods: state and exceptions *)

Definition M (A : Type) : Type := machine -> result (A * machine).

#[export] Instance M_ret : MRet M := fun A a m => Ok (a, m).

#[export] Instance M_bind : MBind M := fun A B k c m =>
  match c m with
  | Ok (a, m') => k a m'
  | Raise e => Raise e
  end.

Definition raise {A} (e : exn) : M A := fun _ => Raise e.

Definition lift {A} (r : result A) : M A := fun m =>
  match r with Ok a => Ok (a, m) | Raise e => Raise e end.

Definition get_self : M strategy := fun m => Ok (self m, m).

Definition modify_self (f : strategy -> strategy) : M unit := fun m =>
  Ok (tt, {| self := f (self m); heap := heap m; trace := trace m |}).

Definition emit (e : event) : M unit := fun m =>
  Ok (tt, {| self := self m; heap := heap m; trace := trace m ++ [e] |}).

(** [for x in xs: body(x)] *)
Fixpoint for_each {A} (xs : list A) (body : A -> M unit) : M unit :=
  match xs with
  | [] => mret tt
  | x :: xs' => body x;; for_each xs' body
  end.

(** [self.custom_info['cache']] and [self.custom_info['remove-autolock']] *)
Definition get_cache : M (gmap string cache_entry) :=
  s ← get_self;
  match cache s with
  | Some c => mret c
  | None => raise (KeyError "cache")
  end.

Definition get_remove_autolock : M (list string) :=
  s ← get_self;
  match remove_autolock s with
  | Some l => mret l
  | None => raise (KeyError "remove-autolock")
  end.

(** The notifications sent so far. *)
Definition sent (m : machine) : list message :=
  omap (fun e => match e with SendMsg msg => Some msg | _ => None end) (trace m).

(* ===================================================================== *)
(** * The methods of [BaseStrategy]                                       *)
(* ===================================================================== *)

(** [log(message, level='INFO', notify=None)] *)
Definition log (msg : message) (level : string) (notify : option bool) : M unit :=
  let send_notification := match notify with None => false | Some b => b end in
  s ← get_self;
  send_notification ←
    (if logger s then
       if String.eqb level "INFO" then
         emit (LoggerCall "info" msg);; mret send_notification
       else if String.eqb level "DEBUG" then
         emit (LoggerCall "debug" msg);; mret send_notification
       else if String.eqb level "WARNING" then
         emit (LoggerCall "warning" msg);;
         mret (match notify with None => true | Some b => b end)
       else if String.eqb level "ERROR" then
         emit (LoggerCall "error" msg);;
         mret (match notify with None => true | Some b => b end)
       else mret send_notification
     else mret send_notification);
  if (send_notification : bool) then emit (SendMsg msg) else mret tt.

(** [get_trade_stoploss_count()]: the loop over the open trades, with the
    counter [trade_count] as it stands when the loop reaches [opentrades]. *)
Fixpoint count_stoploss (h : host) (opentrades : list Trade) (trade_count : Z) : M Z :=
  match opentrades with
  | [] => mret trade_count
  | opentrade :: rest =>
      let current_rate := ticker_last h (pair opentrade) in
      let stoploss_current_dist := PrimFloat.sub (stop_loss opentrade) current_rate in
      stoploss_current_dist_ratio ← lift (truediv stoploss_current_dist current_rate);
      log (MsgStoplossDistance (pair opentrade) current_rate (stop_loss opentrade)
             (stop_loss_pct opentrade) stoploss_current_dist stoploss_current_dist_ratio)
          "DEBUG" None;;
      if gt (fabs (PrimFloat.sub (initial_stop_loss_pct opentrade)
                                 stoploss_current_dist_ratio)) 0.1
      then
        log (MsgStoplossActive (pair opentrade)) "DEBUG" None;;
        count_stoploss h rest (trade_count + 1)
      else count_stoploss h rest trade_count
  end.

Definition get_trade_stoploss_count (h : host) : M Z :=
  count_stoploss h (get_trades_proxy_open h) 0.

(** [update_max_trade_count()] *)
Definition update_max_trade_count (h : host) : M unit :=
  s ← get_self;
  if negb (enable_improved_trade_count s) then mret tt
  else
    sl_trade_count ← get_trade_stoploss_count h;
    let current_trade_count := max_open_trades s in
    let new_trade_count := config_max_trades s + sl_trade_count in
    if ne_int current_trade_count new_trade_count then
      log (MsgChangingMaxTrades current_trade_count new_trade_count
             (config_max_trades s) sl_trade_count) "INFO" (Some true);;
      modify_self (set_max_open_trades (VInt new_trade_count));;
      s' ← get_self;
      modify_self (set_config (<["max_open_trades" := VInt new_trade_count]> (config s')))
    else
      log (MsgLeavingMaxTrades new_trade_count (config_max_trades s) sl_trade_count)
          "INFO" None.


(** [cleanup_cache()].  [outdated] is the test of the loop; [now] is the
    reading of [datetime.now()]. *)
Definition minutes_since (now : Z) (e : cache_entry) : float :=
  PrimFloat.div (total_seconds (now - ce_datetime e)) 60.

Definition outdated (h : host) (now : Z) (e : cache_entry) : bool :=
  gt_int (PrimFloat.sub (minutes_since now e) 2) (timeframe_to_minutes h (ce_tf e)).

Fixpoint scan_cache (h : host) (now : Z) (items : list (string * cache_entry))
    (outdatedkeys : list string) : M (list string) :=
  match items with
  | [] => mret outdatedkeys
  | (key, e) :: rest =>
      if outdated h now e then
        log (MsgRemovingCache key (minutes_since now e)) "INFO" None;;
        scan_cache h now rest (outdatedkeys ++ [key])
      else scan_cache h now rest outdatedkeys
  end.

(** [del self.custom_info['cache'][key]] *)
Definition del_cache (key : string) : M unit :=
  c ← get_cache;
  match c !! key with
  | Some _ => modify_self (set_cache (Some (delete key c)))
  | None => raise (KeyError key)
  end.

Definition cleanup_cache (h : host) (now : Z) : M unit :=
  c ← get_cache;
  outdatedkeys ← scan_cache h now (map_to_list c) [];
  for_each outdatedkeys del_cache.

(** [df.copy()]: a new object with the contents of [df]. *)
Definition copy (df : ref) : M ref := fun m =>
  match heap m !! df with
  | Some d =>
      let r := fresh (dom (heap m)) in
      Ok (r, {| self := self m; heap := <[r := d]> (heap m); trace := trace m |})
  | None => Raise DanglingReference
  end.

Definition cache_key (pair tf : string) : string := pair +:+ "_" +:+ tf.

(** [cache_dataframe(df, pair, tf)] *)
Definition cache_dataframe (now : Z) (df : ref) (pair tf : string) : M unit :=
  let key := cache_key pair tf in
  c ← get_cache;
  entry_tf ← match c !! key with
             | None => log (MsgCreatedCache key) "INFO" None;; mret tf
             | Some e => mret (ce_tf e)
             end;
  r ← copy df;
  modify_self (set_cache
    (Some (<[key := {| ce_tf := entry_tf; ce_df := r; ce_datetime := now |}]> c))).

(** [get_dataframe_from_cache(pair, tf)] *)
Definition get_dataframe_from_cache (pair tf : string) : M (option ref) :=
  let key := cache_key pair tf in
  c ← get_cache;
  mret (ce_df <$> c !! key).

(** [schedule_remove_autolock(pair)] *)
Definition schedule_remove_autolock (pair : string) : M unit :=
  pending ← get_remove_autolock;
  modify_self (set_remove_autolock (Some (pending ++ [pair])));;
  log (MsgScheduledRemoval pair) "INFO" None.

(** [is_locked_until(pair)] *)
Definition is_locked_until (h : host) (pair : string) : string :=
  match get_pair_longest_lock h pair with
  | Some lock_end_time => lock_end_time
  | None => ""
  end.

(** [bot_start()] *)
Definition bot_start (h : host) : M unit :=
  modify_self (set_cache (Some ∅));;
  modify_self (set_remove_autolock (Some []));;
  s ← get_self;
  emit (SuperBotStart s);;
  log MsgVersion "INFO" None;;
  log (MsgLeverageConfiguration (leverage_configuration s)) "INFO" None;;
  update_max_trade_count h.

(** The sanity check of [bot_loop_start] on a pair scheduled for unlocking:
    [if lock:] holds for a string that is not empty. *)
Definition check_unlocked (h : host) (pair : string) : M unit :=
  let lock := is_locked_until h pair in
  if String.eqb lock "" then mret tt
  else log (MsgLockStillActive pair lock) "ERROR" None.

(** [bot_loop_start(current_time)] *)
Definition bot_loop_start (h : host) (now : Z) (current_time : datetime) : M unit :=
  (if (minute current_time mod 5 =? 0) && (second current_time <=? 8) then
     cleanup_cache h now;;
     update_max_trade_count h
   else mret tt);;
  pending ← get_remove_autolock;
  (if (0 <? Z.of_nat (length pending)) then
     s ← get_self;
     emit (UnlockReason s "Auto lock");;
     for_each pending (check_unlocked h);;
     _ ← get_remove_autolock;
     modify_self (set_remove_autolock (Some []))
   else mret tt);;
  s ← get_self;
  emit (SuperBotLoopStart s current_time).

(** [dataframe.loc[:, column] = v], on the object [dataframe]. *)
Definition loc_set_column (column : string) (v : value) (d : DataFrame) : DataFrame :=
  {| nrows := nrows d;
     columns := dict_set column (replicate (nrows d) v) (columns d) |}.

Definition set_column (dataframe : ref) (column : string) (v : value) : M unit := fun m =>
  match heap m !! dataframe with
  | Some d =>
      Ok (tt, {| self := self m;
                 heap := <[dataframe := loc_set_column column v d]> (heap m);
                 trace := trace m |})
  | None => Raise DanglingReference
  end.

(** [populate_indicators], [populate_entry_trend], [populate_exit_trend] *)
Definition populate_indicators (dataframe : ref) (metadata : dict string) : M ref :=
  mret dataframe.

Definition populate_entry_trend (dataframe : ref) (metadata : dict string) : M ref :=
  set_column dataframe "enter_long" (VInt 0);;
  set_column dataframe "enter_short" (VInt 0);;
  mret dataframe.

Definition populate_exit_trend (dataframe : ref) (metadata : dict string) : M ref :=
  set_column dataframe "exit_long" (VInt 0);;
  set_column dataframe "exit_short" (VInt 0);;
  mret dataframe.

(** [confirm_trade_exit(...)] *)
Definition profit_checked : list string :=
  ["roi"; "stop_loss"; "stoploss_on_exchange"; "trailing_stop_loss"; "exit_signal"].

Definition confirm_trade_exit (h : host) (pair : string) (trade : Trade)
    (order_type : string) (amount rate : float) (time_in_force exit_reason : string)
    (current_time : datetime) : M bool :=
  let confirmed := super_confirm_trade_exit h pair trade order_type amount rate
                     time_in_force exit_reason current_time in
  if bool_decide (exit_reason ∈ profit_checked) then
    let current_profit := calc_profit_ratio h trade rate in
    s ← get_self;
    if le current_profit (min_profit s) then
      log (MsgRejectExit pair exit_reason rate current_profit) "WARNING" None;;
      mret false
    else mret confirmed
  else mret confirmed.

(** [leverage(...)] *)
Definition leverage (pair : string) (current_time : datetime) (current_rate : float)
    (proposed_leverage max_leverage : float) (entry_tag : option string)
    (side : string) : M number :=
  s ← get_self;
  let pairkey := pair +:+ "_" +:+ side in
  let leverage :=
    match dict_get pairkey (leverage_configuration s) with
    | Some v => v
    | None =>
        match dict_get "default" (leverage_configuration s) with
        | Some v => v
        | None => NFloat 1
        end
    end in
  log (MsgReturningLeverage leverage pair side (leverage_configuration s)) "INFO" None;;
  mret leverage.

(** ** Construction

    The class attributes a strategy is built from: those of [BaseStrategy]
    or of a class derived from it; [cls_max_open_trades] is the host's. *)
Record class_attributes := {
  cls_min_profit : float;
  cls_minimal_roi : dict float;
  cls_stoploss : float;
  cls_leverage_configuration : dict number;
  cls_enable_improved_trade_count : bool;
  cls_max_open_trades : value;
}.

Definition BaseStrategy (host_max_open_trades : value) : class_attributes :=
  {| cls_min_profit := 0.0025;
     cls_minimal_roi := [("0"%string, 0.01%float)];
     cls_stoploss := (-0.99)%float;
     cls_leverage_configuration := [];
     cls_enable_improved_trade_count := false;
     cls_max_open_trades := host_max_open_trades |}.

(** [__init__(config)].  [round] is Python's [round(x, ndigits)]. *)
Definition __init__ (round : float -> Z -> float) (cls : class_attributes)
    (config : gmap string value) : result strategy :=
  let config_max_trades :=
    match config !! "max_open_trades" with
    | Some (VInt n) => n
    | _ => 0
    end in
  match update_items (fun v => match to_float v with
                               | Ok x => Ok (NFloat x)
                               | Raise e => Raise e
                               end)
          (cls_leverage_configuration cls) (cls_leverage_configuration cls) with
  | Raise e => Raise e
  | Ok leverage_configuration =>
      let leverage :=
        match dict_values leverage_configuration with
        | v :: vs => min_from v vs
        | [] => NFloat 1
        end in
      match update_items (fun v => match mul_number v leverage with
                                   | Ok x => Ok (round x 4)
                                   | Raise e => Raise e
                                   end)
              (cls_minimal_roi cls) (cls_minimal_roi cls) with
      | Raise e => Raise e
      | Ok minimal_roi =>
          match mul_number (cls_stoploss cls) leverage with
          | Raise e => Raise e
          | Ok stoploss =>
              Ok {| logger := true;
                    min_profit := cls_min_profit cls;
                    minimal_roi := minimal_roi;
                    stoploss := stoploss;
                    leverage_configuration := leverage_configuration;
                    cache := None;
                    remove_autolock := None;
                    config_max_trades := config_max_trades;
                    enable_improved_trade_count := cls_enable_improved_trade_count cls;
                    max_open_trades := cls_max_open_trades cls;
                    config := config |}
          end
      end
  end.
(* ===================================================================== *)
(** * Running methods: the events of a call                               *)
(* ===================================================================== *)

Definition add_events (evs : list event) (m : machine) : machine :=
  {| self := self m; heap := heap m; trace := trace m ++ evs |}.

(** The events of one [log] call. *)
Definition log_events (has_logger : bool) (msg : message) (level : string)
    (notify : option bool) : list event :=
  let quiet := match notify with None => false | Some b => b end in
  let loud := match notify with None => true | Some b => b end in
  let notification (b : bool) := if b then [SendMsg msg] else [] in
  if has_logger then
    if String.eqb level "INFO" then LoggerCall "info" msg :: notification quiet
    else if String.eqb level "DEBUG" then LoggerCall "debug" msg :: notification quiet
    else if String.eqb level "WARNING" then LoggerCall "warning" msg :: notification loud
    else if String.eqb level "ERROR" then LoggerCall "error" msg :: notification loud
    else notification quiet
  else notification quiet.


(** The notifications among some events. *)
Definition notifications (evs : list event) : list message :=
  omap (fun e => match e with SendMsg msg => Some msg | _ => None end) evs.

(** ** The stoploss band

    A trade counts as running in stoploss when
    [|initial_stop_loss_pct - (stop_loss - last_rate) / last_rate| > 0.1],
    with [last_rate] the last price of the ticker of its pair. *)
Definition stoploss_active (h : host) (t : Trade) : bool :=
  let last_rate := ticker_last h (pair t) in
  gt (fabs (initial_stop_loss_pct t - (stop_loss t - last_rate) / last_rate)%float) 0.1.

(** The ticker has a price to divide by. *)
Definition priced (h : host) (t : Trade) : Prop :=
  is_zero (ticker_last h (pair t)) = false.

(** The number of open trades in the stoploss band. *)
Definition stoploss_band_count (h : host) : Z :=
  Z.of_nat (length (List.filter (stoploss_active h) (get_trades_proxy_open h))).

(** ** A small world to run the methods in

    Two open trades at a last price of 100: the first has its stoploss at
    its initial distance of 10% below the price, the second has had it moved
    to 10% above and is in the band. *)
Definition btc : Trade :=
  {| pair := "BTC/USDT"; stop_loss := 90; stop_loss_pct := (-0.1)%float;
     initial_stop_loss_pct := (-0.1)%float |}.

Definition eth : Trade :=
  {| pair := "ETH/USDT"; stop_loss := 110; stop_loss_pct := 0.1%float;
     initial_stop_loss_pct := (-0.1)%float |}.

Definition demo_timeframe_to_minutes (tf : string) : Z :=
  if String.eqb tf "1h" then 60
  else if String.eqb tf "5m" then 5
  else if String.eqb tf "1d" then 1440
  else 1.

Definition demo_host : host :=
  {| get_trades_proxy_open := [btc; eth];
     ticker_last := fun _ => 100%float;
     calc_profit_ratio := fun _ rate => (rate / 100 - 1)%float;
     super_confirm_trade_exit := fun _ _ _ _ _ _ _ _ => true;
     get_pair_longest_lock := fun _ => None;
     timeframe_to_minutes := demo_timeframe_to_minutes |}.

(** A strategy with the improved trade count on, three trades configured,
    after [bot_start]. *)
Definition demo_strategy : strategy :=
  {| logger := true;
     min_profit := 0.0025;
     minimal_roi := [("0"%string, 0.01%float)];
     stoploss := (-0.99)%float;
     leverage_configuration := [("default"%string, NFloat 3)];
     cache := Some ∅;
     remove_autolock := Some [];
     config_max_trades := 3;
     enable_improved_trade_count := true;
     max_open_trades := VInt 3;
     config := {["max_open_trades"%string := VInt 3]} |}.

Definition demo_machine : machine :=
  {| self := demo_strategy; heap := ∅; trace := [] |}.

(** The same on a quiet market (no open trade), with a configuration whose
    [max_open_trades] the host has set to 5 since. *)
Definition quiet_host : host :=
  {| get_trades_proxy_open := [];
     ticker_last := fun _ => 100%float;
     calc_profit_ratio := fun _ rate => (rate / 100 - 1)%float;
     super_confirm_trade_exit := fun _ _ _ _ _ _ _ _ => true;
     get_pair_longest_lock := fun _ => None;
     timeframe_to_minutes := demo_timeframe_to_minutes |}.

Definition unsynced_machine : machine :=
  {| self := set_config {["max_open_trades"%string := VInt 5]} demo_strategy;
     heap := ∅; trace := [] |}.

(** The cell of row [i] in a column of a dataframe. *)
Definition cell (d : DataFrame) (column : string) (i : nat) : option value :=
  match dict_get column (columns d) with
  | Some cells => cells !! i
  | None => None
  end.

(** A dataframe of two candles in the store of the demo machine. *)
Definition candles : DataFrame :=
  {| nrows := 2;
     columns := [("close"%string, [VFloat 100; VFloat 101]);
                 ("enter_long"%string, [VInt 1; VInt 0])] |}.

Definition candles_machine : machine :=
  {| self := demo_strategy; heap := {[1%positive := candles]}; trace := [] |}.

(** The machine with [custom_info\['cache'\]] replaced. *)
Definition with_cache (c : gmap string cache_entry) (m : machine) : machine :=
  {| self := set_cache (Some c) (self m); heap := heap m; trace := trace m |}.

(** What [cleanup_cache] at [now] leaves of a cache entry. *)
Definition kept (h : host) (now : Z) (e : option cache_entry) : option cache_entry :=
  match e with
  | Some e => if outdated h now e then None else Some e
  | None => None
  end.

(** A change made in place to the object [df]: its contents become [d']. *)
Definition mutate (df : ref) (d' : DataFrame) (m : machine) : machine :=
  {| self := self m; heap := <[df := d']> (heap m); trace := trace m |}.

(** A cache of two dataframes stored at time 0: an hourly one and a
    five-minute one. *)
Definition two_entries : gmap string cache_entry :=
  <["BTC/USDT_1h"%string := {| ce_tf := "1h"; ce_df := 2%positive; ce_datetime := 0 |}]>
    {["ETH/USDT_5m"%string := {| ce_tf := "5m"; ce_df := 3%positive; ce_datetime := 0 |}]}.

Definition cached_machine : machine :=
  {| self := set_cache (Some two_entries) demo_strategy;
     heap := {[1%positive := candles; 2%positive := candles; 3%positive := candles]};
     trace := [] |}.

(** Ten minutes, in microseconds. *)
Definition ten_minutes : Z := 600000000.

(** The tasks of [bot_loop_start] that run once every five minutes are due. *)
Definition periodic (current_time : datetime) : bool :=
  (minute current_time mod 5 =? 0) && (second current_time <=? 8).

(** The demo machine with two pairs scheduled by [schedule_remove_autolock]. *)
Definition scheduled_machine : machine :=
  {| self := set_remove_autolock (Some ["BTC/USDT"; "ETH/USDT"]%string)
               (set_cache (Some two_entries) demo_strategy);
     heap := ∅; trace := [] |}.

(** [min] on floats, as [min_from] on numbers. *)
Definition float_min (x : float) (xs : list float) : float :=
  fold_left (fun best y => if PrimFloat.ltb y best then y else best) xs x.

(** A value and the float it converts to, item by item. *)
Definition converted (kv : string * number) (kx : string * float) : Prop :=
  kx.1 = kv.1 /\ to_float kv.2 = Ok kx.2.

(** A derived strategy: leverage 3 by default and 2 on BTC longs, and two
    steps of ROI.  On these values [round(x, 4)] has nothing to round. *)
Definition leveraged : class_attributes :=
  {| cls_min_profit := 0.0025;
     cls_minimal_roi := [("0"%string, 0.01%float); ("60"%string, 0.005%float)];
     cls_stoploss := (-0.25)%float;
     cls_leverage_configuration :=
       [("default"%string, NInt 3); ("BTC/USDT_long"%string, NFloat 2)];
     cls_enable_improved_trade_count := true;
     cls_max_open_trades := VInt 3 |}.

Definition round_of_exact (x : float) (ndigits : Z) : float := x.

(** What a call of [bot_loop_start] that started at [m] with the pairs
    [pending] scheduled has done when it returns at [m']: the list is empty,
    and if there were pairs, [unlock_reason('Auto lock')] was called while
    the list still held them. *)
Definition unlocked_and_cleared (pending : list string) (m m' : machine) : Prop :=
  remove_autolock (self m') = Some []
  /\ (pending <> [] ->
      exists before this after,
        trace m' = trace m ++ before ++ UnlockReason this "Auto lock" :: after
        /\ remove_autolock this = Some pending).

(* ===================================================================== *)
(** * Further worlds to run the methods in                                *)
(* ===================================================================== *)

(** A market whose tickers carry no price. *)
Definition halted_host : host :=
  {| get_trades_proxy_open := [btc; eth];
     ticker_last := fun _ => 0%float;
     calc_profit_ratio := calc_profit_ratio demo_host;
     super_confirm_trade_exit := super_confirm_trade_exit demo_host;
     get_pair_longest_lock := get_pair_longest_lock demo_host;
     timeframe_to_minutes := demo_timeframe_to_minutes |}.

(** The demo strategy before [__init__] has set its logger. *)
Definition unlogged_machine : machine :=
  {| self :=
       {| logger := false;
          min_profit := min_profit demo_strategy;
          minimal_roi := minimal_roi demo_strategy;
          stoploss := stoploss demo_strategy;
          leverage_configuration := leverage_configuration demo_strategy;
          cache := None;
          remove_autolock := None;
          config_max_trades := 3;
          enable_improved_trade_count := true;
          max_open_trades := VInt 3;
          config := config demo_strategy |};
     heap := ∅; trace := [] |}.

(** The demo strategy on a host that allows any number of open trades. *)
Definition unlimited_machine : machine :=
  {| self := set_max_open_trades (VFloat infinity) demo_strategy;
     heap := ∅; trace := [] |}.

(** A derived strategy for a host without a limit on open trades. *)
Definition unlimited_class : class_attributes :=
  {| cls_min_profit := 0.0025;
     cls_minimal_roi := [("0"%string, 0.01%float)];
     cls_stoploss := (-0.25)%float;
     cls_leverage_configuration := [("default"%string, NInt 2)];
     cls_enable_improved_trade_count := true;
     cls_max_open_trades := VFloat infinity |}.

(** A host on which ETH/USDT is still locked. *)
Definition locking_host : host :=
  {| get_trades_proxy_open := [];
     ticker_last := fun _ => 100%float;
     calc_profit_ratio := calc_profit_ratio demo_host;
     super_confirm_trade_exit := super_confirm_trade_exit demo_host;
     get_pair_longest_lock := fun pair =>
       if String.eqb pair "ETH/USDT" then Some "2024-01-01 00:05:00"%string else None;
     timeframe_to_minutes := demo_timeframe_to_minutes |}.

(** The events of the sanity check of [bot_loop_start] over the scheduled
    pairs, and the messages it has to send. *)
Definition check_events (has_logger : bool) (h : host) (pending : list string)
    : list event :=
  flat_map (fun pair =>
    let lock := is_locked_until h pair in
    if String.eqb lock "" then []
    else log_events has_logger (MsgLockStillActive pair lock) "ERROR" None) pending.

Definition still_locked (h : host) (pending : list string) : list message :=
  omap (fun pair =>
    let lock := is_locked_until h pair in
    if String.eqb lock "" then None else Some (MsgLockStillActive pair lock)) pending.

(** The demo machine with nothing scheduled yet, and its cache in place. *)
Definition idle_machine : machine :=
  {| self := set_cache (Some two_entries) demo_strategy; heap := ∅; trace := [] |}.

(** Whether a character occurs in a string. *)
Fixpoint contains (c : Ascii.ascii) (s : string) : bool :=
  match s with
  | EmptyString => false
  | String a s' => Ascii.eqb a c || contains c s'
  end.

(** A host whose trades report a profit that is not a number. *)
Definition nan_host : host :=
  {| get_trades_proxy_open := [];
     ticker_last := fun _ => 100%float;
     calc_profit_ratio := fun _ _ => nan;
     super_confirm_trade_exit := super_confirm_trade_exit demo_host;
     get_pair_longest_lock := get_pair_longest_lock demo_host;
     timeframe_to_minutes := demo_timeframe_to_minutes |}.

(* ===================================================================== *)
(** * Further methods of [BaseStrategy]                                   *)
(* ===================================================================== *)

(** [get_custom_pairkey(pair, side)] *)
Definition get_custom_pairkey (pair side : string) : string :=
  pair +:+ "_" +:+ side.

(** [s.split(sep)] for a separator of one character: the pieces between
    the separators, empty ones included. *)
Fixpoint split_on (sep : Ascii.ascii) (s : string) : list string :=
  match s with
  | EmptyString => [EmptyString]
  | String a s' =>
      if Ascii.eqb a sep then EmptyString :: split_on sep s'
      else match split_on sep s' with
           | piece :: pieces => String a piece :: pieces
           | [] => [String a EmptyString]
           end
  end.

Definition slash : Ascii.ascii := Ascii.ascii_of_nat 47.
Definition underscore : Ascii.ascii := Ascii.ascii_of_nat 95.

(** [get_round_digits(pair)]; [None] stands for the [IndexError] of
    [pair.split('/')\[1\]] on a pair without a slash. *)
Definition get_round_digits (pair : string) : option Z :=
  match split_on slash pair !! 1%nat with
  | Some base =>
      Some (if bool_decide (base ∈ ["BTC"; "ETH"]%string) then 8 else 4)
  | None => None
  end.

(** [v != w] on the values of cells. *)
Definition value_ne (v w : value) : bool :=
  match v, w with
  | VInt a, VInt b => negb (a =? b)
  | VFloat x, VFloat y => negb (PrimFloat.eqb x y)
  | VFloat x, VInt b => negb (eq_int x b)
  | VInt a, VFloat y => negb (eq_int y a)
  | VStr s, VStr t => negb (String.eqb s t)
  | VNone, VNone => false
  | _, _ => true
  end.

(** [df.iloc\[-1\].squeeze()\['date'\]]: the date of the last candle.
    [None] stands for an exception: the [IndexError] of [iloc\[-1\]] on a
    dataframe without rows, the failure to index the scalar that [squeeze]
    makes of a row of a single column, and the [KeyError] of a row without
    a ['date']. *)
Definition last_candle_date (d : DataFrame) : option value :=
  match nrows d with
  | O => None
  | S i =>
      match columns d with
      | [_] => None
      | _ => cell d "date" i
      end
  end.

(** [refresh_data_required(old_df, new_df)], which reads the two
    dataframes; [None] stands for an exception. *)
Definition refresh_data_required (old_df : option ref) (new_df : ref) (m : machine)
    : option bool :=
  match old_df with
  | None => Some true
  | Some old_df =>
      d_old ← heap m !! old_df;
      last_old_candle ← (match nrows d_old with O => None | S _ => Some d_old end);
      d_new ← heap m !! new_df;
      last_new_candle ← (match nrows d_new with O => None | S _ => Some d_new end);
      old_date ← last_candle_date last_old_candle;
      new_date ← last_candle_date last_new_candle;
      Some (value_ne old_date new_date)
  end.

(** Two hourly candles with their dates, as seconds. *)
Definition dated_candles : DataFrame :=
  {| nrows := 2;
     columns := [("date"%string, [VInt 1704067200; VInt 1704070800]);
                 ("close"%string, [VFloat 100; VFloat 101])] |}.

Definition dated_machine : machine :=
  {| self := set_cache (Some ∅) demo_strategy;
     heap := {[1%positive := dated_candles]}; trace := [] |}.
Lemma add_events_nil m : add_events [] m = m.
Proof. destruct m; unfold add_events; simpl. by rewrite app_nil_r. Qed.

Lemma add_events_app evs1 evs2 m :
  add_events evs2 (add_events evs1 m) = add_events (evs1 ++ evs2) m.
Proof. unfold add_events; simpl. by rewrite app_assoc. Qed.

Lemma self_add_events evs m : self (add_events evs m) = self m.
Proof. reflexivity. Qed.

Lemma heap_add_events evs m : heap (add_events evs m) = heap m.
Proof. reflexivity. Qed.

Lemma log_run msg level notify m :
  log msg level notify m =
  Ok (tt, add_events (log_events (logger (self m)) msg level notify) m).
Proof.
  unfold log, log_events, mbind, M_bind, mret, M_ret, get_self, emit; simpl.
  destruct (logger (self m)); simpl.
  - destruct (String.eqb level "INFO"); [|destruct (String.eqb level "DEBUG");
      [|destruct (String.eqb level "WARNING"); [|destruct (String.eqb level "ERROR")]]];
      destruct notify as [[|]|]; simpl; unfold add_events; simpl;
      rewrite <- ?app_assoc, ?app_nil_r; try reflexivity.
    all: destruct m; reflexivity.
  - destruct notify as [[|]|]; simpl; by rewrite ?add_events_nil.
Qed.

Lemma notifications_app evs1 evs2 :
  notifications (evs1 ++ evs2) = notifications evs1 ++ notifications evs2.
Proof. unfold notifications. apply omap_app. Qed.

Lemma sent_add_events evs m : sent (add_events evs m) = sent m ++ notifications evs.
Proof. unfold sent, notifications, add_events; simpl. apply omap_app. Qed.

Lemma log_quiet has_logger msg level :
  level = "INFO"%string \/ level = "DEBUG"%string ->
  notifications (log_events has_logger msg level None) = [].
Proof. intros [-> | ->]; destruct has_logger; reflexivity. Qed.

(** Unfolding one step of the monad. *)
Lemma bind_run {A B} (c : M A) (k : A -> M B) m :
  (c ≫= k) m = match c m with Ok (a, m') => k a m' | Raise e => Raise e end.
Proof. reflexivity. Qed.

Lemma ret_run {A} (a : A) m : (mret a : M A) m = Ok (a, m).
Proof. reflexivity. Qed.

Ltac run := repeat (rewrite ?bind_run, ?ret_run, ?log_run; simpl).

(** ** Counting the trades in stoploss *)

Lemma count_stoploss_run h trades : forall n m,
  Forall (priced h) trades ->
  exists evs,
    count_stoploss h trades n m =
      Ok (n + Z.of_nat (length (List.filter (stoploss_active h) trades)), add_events evs m)
    /\ notifications evs = [].
Proof.
  induction trades as [|t trades IH]; intros n m Hp.
  - exists []. simpl. rewrite Z.add_0_r, add_events_nil. done.
  - inversion Hp as [|? ? Ht Hts]; subst.
    unfold priced in Ht. cbn [count_stoploss].
    rewrite bind_run. unfold lift, truediv. rewrite Ht.
    rewrite bind_run, log_run.
    cbn [List.filter].
    destruct (stoploss_active h t) eqn:Hact;
      unfold stoploss_active in Hact; cbv zeta in Hact; rewrite Hact.
    + rewrite bind_run, log_run, add_events_app.
      match goal with |- context [count_stoploss h trades ?k ?m'] =>
        destruct (IH k m' Hts) as (evs & Hrun & Hq) end.
      eexists. rewrite Hrun, add_events_app. split.
      * f_equal. f_equal. cbn [length]. lia.
      * rewrite !notifications_app, Hq, !log_quiet by auto. done.
    + match goal with |- context [count_stoploss h trades ?k ?m'] =>
        destruct (IH k m' Hts) as (evs & Hrun & Hq) end.
      eexists. rewrite Hrun, add_events_app. split; [done|].
      rewrite notifications_app, Hq, log_quiet by auto. done.
Qed.

(** C2: [get_trade_stoploss_count] returns exactly the number of open trades
    for which [|initial_stop_loss_pct - (stop_loss - last_rate) / last_rate|
    > 0.1], [last_rate] being the last price of the ticker of the trade's
    pair, whenever every such price can be divided by; the result then lies
    between 0 and the number of open trades.  The call changes nothing of
    the strategy and sends no notification. *)
Theorem get_trade_stoploss_count_spec (h : host) (m : machine) :
  Forall (priced h) (get_trades_proxy_open h) ->
  exists n m',
    get_trade_stoploss_count h m = Ok (n, m')
    /\ n = Z.of_nat (length (List.filter (stoploss_active h) (get_trades_proxy_open h)))
    /\ 0 <= n <= Z.of_nat (length (get_trades_proxy_open h))
    /\ self m' = self m /\ heap m' = heap m /\ sent m' = sent m.
Proof.
  intros Hp. unfold get_trade_stoploss_count.
  destruct (count_stoploss_run h _ 0 m Hp) as (evs & Hrun & Hq).
  eexists _, _. split; [exact Hrun|].
  split; [reflexivity|]. split.
  - pose proof (filter_length_le (stoploss_active h) (get_trades_proxy_open h)). lia.
  - rewrite sent_add_events, Hq, app_nil_r. done.
Qed.

Lemma get_trade_stoploss_count_spec_witness :
  exists n m',
    get_trade_stoploss_count demo_host demo_machine = Ok (n, m')
    /\ n = Z.of_nat (length (List.filter (stoploss_active demo_host)
                               (get_trades_proxy_open demo_host)))
    /\ 0 <= n <= Z.of_nat (length (get_trades_proxy_open demo_host))
    /\ self m' = self demo_machine /\ heap m' = heap demo_machine
    /\ sent m' = sent demo_machine.
Proof.
  apply (get_trade_stoploss_count_spec demo_host demo_machine).
  repeat constructor.
Defined.

Example get_trade_stoploss_count_demo :
  fst <$> (match get_trade_stoploss_count demo_host demo_machine with
           | Ok r => Some r | Raise _ => None end) = Some 1.
Proof. vm_compute. reflexivity. Qed.

(** A ticker without a price stops the count. *)
Example get_trade_stoploss_count_unpriced :
  get_trade_stoploss_count
    {| get_trades_proxy_open := [btc];
       ticker_last := fun _ => 0%float;
       calc_profit_ratio := calc_profit_ratio demo_host;
       super_confirm_trade_exit := super_confirm_trade_exit demo_host;
       get_pair_longest_lock := get_pair_longest_lock demo_host;
       timeframe_to_minutes := demo_timeframe_to_minutes |} demo_machine
  = Raise ZeroDivisionError.
Proof. reflexivity. Qed.

(** ** The dynamic limit on open trades *)

Lemma update_max_trade_count_off h m :
  enable_improved_trade_count (self m) = false ->
  update_max_trade_count h m = Ok (tt, m).
Proof.
  intros Hoff. unfold update_max_trade_count.
  rewrite bind_run. unfold get_self. rewrite Hoff. reflexivity.
Qed.

Lemma update_max_trade_count_on h m :
  enable_improved_trade_count (self m) = true ->
  Forall (priced h) (get_trades_proxy_open h) ->
  let new_trade_count := config_max_trades (self m) + stoploss_band_count h in
  exists m',
    update_max_trade_count h m = Ok (tt, m')
    /\ heap m' = heap m
    /\ cache (self m') = cache (self m)
    /\ remove_autolock (self m') = remove_autolock (self m)
    /\ if ne_int (max_open_trades (self m)) new_trade_count
       then max_open_trades (self m') = VInt new_trade_count
            /\ config (self m') =
                 <["max_open_trades" := VInt new_trade_count]> (config (self m))
       else max_open_trades (self m') = max_open_trades (self m)
            /\ config (self m') = config (self m).
Proof.
  intros Hon Hp new_trade_count. unfold update_max_trade_count.
  rewrite bind_run. unfold get_self at 1. rewrite Hon. cbn [negb].
  rewrite bind_run. unfold get_trade_stoploss_count.
  destruct (count_stoploss_run h _ 0 m Hp) as (evs & -> & _).
  rewrite Z.add_0_l. fold (stoploss_band_count h). fold new_trade_count.
  destruct (ne_int _ _).
  - run. eexists. split; [reflexivity|]. cbn. done.
  - run. eexists. split; [reflexivity|]. cbn. done.
Qed.

(** C1 (as the code has it): with [enable_improved_trade_count] off, a call
    to [update_max_trade_count] returns at once and leaves the machine as it
    is.  With it on, the call computes
    [N = config_max_trades + get_trade_stoploss_count()]; when
    [self.max_open_trades] differs from [N] it sets both
    [self.max_open_trades] and [self.config\['max_open_trades'\]] to [N],
    and otherwise it writes neither.  So [self.max_open_trades] equals [N]
    after every call, and [config\['max_open_trades'\]] does when it agreed
    with [self.max_open_trades] before the call. *)
Theorem update_max_trade_count_spec (h : host) (m : machine) :
  let N := config_max_trades (self m) + stoploss_band_count h in
  (enable_improved_trade_count (self m) = false ->
     update_max_trade_count h m = Ok (tt, m))
  /\ (enable_improved_trade_count (self m) = true ->
      Forall (priced h) (get_trades_proxy_open h) ->
      exists m',
        update_max_trade_count h m = Ok (tt, m')
        /\ (if ne_int (max_open_trades (self m)) N
            then max_open_trades (self m') = VInt N
                 /\ config (self m') !! "max_open_trades" = Some (VInt N)
            else max_open_trades (self m') = max_open_trades (self m)
                 /\ config (self m') = config (self m))
        /\ ne_int (max_open_trades (self m')) N = false
        /\ (config (self m) !! "max_open_trades" = Some (max_open_trades (self m)) ->
            exists v, config (self m') !! "max_open_trades" = Some v
                      /\ ne_int v N = false)).
Proof.
  intros N. split; [apply update_max_trade_count_off|].
  intros Hon Hp.
  destruct (update_max_trade_count_on h m Hon Hp) as (m' & Hrun & _ & _ & _ & Hm').
  fold N in Hm'. exists m'. split; [exact Hrun|].
  destruct (ne_int (max_open_trades (self m)) N) eqn:Hne.
  - destruct Hm' as [Hmax Hcfg]. rewrite Hmax, Hcfg, lookup_insert_eq.
    assert (HN : ne_int (VInt N) N = false) by (cbn; by rewrite Z.eqb_refl).
    repeat split; eauto.
  - destruct Hm' as [Hmax Hcfg]. rewrite Hmax, Hcfg.
    repeat split; eauto.
Qed.

(** In the demo world one of the two open trades is in the band: the limit
    goes from 3 to 4, on the strategy and in the configuration. *)
Lemma update_max_trade_count_spec_witness :
  exists m',
    update_max_trade_count demo_host demo_machine = Ok (tt, m')
    /\ (if ne_int (max_open_trades (self demo_machine)) 4
        then max_open_trades (self m') = VInt 4
             /\ config (self m') !! "max_open_trades" = Some (VInt 4)
        else max_open_trades (self m') = max_open_trades (self demo_machine)
             /\ config (self m') = config (self demo_machine))
    /\ ne_int (max_open_trades (self m')) 4 = false
    /\ (config (self demo_machine) !! "max_open_trades"
          = Some (max_open_trades (self demo_machine)) ->
        exists v, config (self m') !! "max_open_trades" = Some v
                  /\ ne_int v 4 = false).
Proof.
  apply (proj2 (update_max_trade_count_spec demo_host demo_machine)).
  - reflexivity.
  - repeat constructor.
Defined.

(** C1 as stated fails where [self.max_open_trades] already equals the new
    count and the configuration holds another value: with the feature on,
    three trades configured and none in stoploss, the call leaves
    [config\['max_open_trades'\]] at 5 instead of setting it to 3 + 0. *)
Lemma update_max_trade_count_leaves_config :
  enable_improved_trade_count (self unsynced_machine) = true
  /\ (exists m1, get_trade_stoploss_count quiet_host unsynced_machine = Ok (0, m1))
  /\ config_max_trades (self unsynced_machine) + 0 = 3
  /\ exists m',
       update_max_trade_count quiet_host unsynced_machine = Ok (tt, m')
       /\ max_open_trades (self m') = VInt 3
       /\ config (self m') !! "max_open_trades" = Some (VInt 5).
Proof.
  split; [reflexivity|]. split; [eexists; reflexivity|]. split; [reflexivity|].
  destruct (update_max_trade_count_on quiet_host unsynced_machine eq_refl (List.Forall_nil _))
    as (m' & Hrun & _ & _ & _ & Hm').
  change (ne_int _ _) with false in Hm'. destruct Hm' as [Hmax Hcfg].
  exists m'. split; [exact Hrun|]. rewrite Hmax, Hcfg. split; [reflexivity|].
  apply lookup_singleton_eq.
Qed.

(** ** Logging *)

(** C6 (the code's behaviour where it departs from the claim): a call of
    [log] with [notify=False] sends no notification, whatever the level,
    ['WARNING'] and ['ERROR'] included. *)
Theorem log_notify_false_sends_nothing (msg : message) (level : string) (m : machine) :
  exists m', log msg level (Some false) m = Ok (tt, m') /\ sent m' = sent m.
Proof.
  eexists. split; [apply log_run|].
  rewrite sent_add_events. unfold log_events.
  repeat case_match; cbn; by rewrite app_nil_r.
Qed.

(** With [notify] left out, and the logger set, a warning or an error is
    logged and then sent. *)
Lemma log_warning_error_default (msg : message) (level : string) (m : machine) :
  logger (self m) = true ->
  level = "WARNING"%string \/ level = "ERROR"%string ->
  exists m', log msg level None m = Ok (tt, m') /\ sent m' = sent m ++ [msg].
Proof.
  intros Hl Hlevel. eexists. split; [apply log_run|].
  rewrite sent_add_events, Hl. by destruct Hlevel as [-> | ->].
Qed.

Example log_warning_notify_false :
  log MsgVersion "WARNING" (Some false) demo_machine
  = Ok (tt, add_events [LoggerCall "warning" MsgVersion] demo_machine).
Proof. reflexivity. Qed.

(** ** Confirming an exit *)

Lemma elem_of_profit_checked (exit_reason : string) :
  exit_reason ∈ profit_checked <->
  exit_reason = "roi"%string \/ exit_reason = "stop_loss"%string
  \/ exit_reason = "stoploss_on_exchange"%string
  \/ exit_reason = "trailing_stop_loss"%string \/ exit_reason = "exit_signal"%string.
Proof.
  unfold profit_checked. rewrite !elem_of_cons, elem_of_nil. tauto.
Qed.

Lemma confirm_trade_exit_rejects h m pair trade order_type amount rate
    time_in_force exit_reason current_time :
  exit_reason ∈ profit_checked ->
  le (calc_profit_ratio h trade rate) (min_profit (self m)) = true ->
  exists m',
    confirm_trade_exit h pair trade order_type amount rate time_in_force
      exit_reason current_time m = Ok (false, m')
    /\ self m' = self m.
Proof.
  intros Hin Hle. unfold confirm_trade_exit.
  rewrite bool_decide_eq_true_2 by done.
  rewrite bind_run. unfold get_self at 1. rewrite Hle.
  run. eexists. split; reflexivity.
Qed.

Lemma confirm_trade_exit_accepts h m pair trade order_type amount rate
    time_in_force exit_reason current_time :
  exit_reason ∈ profit_checked ->
  le (calc_profit_ratio h trade rate) (min_profit (self m)) = false ->
  confirm_trade_exit h pair trade order_type amount rate time_in_force
    exit_reason current_time m
  = Ok (super_confirm_trade_exit h pair trade order_type amount rate time_in_force
          exit_reason current_time, m).
Proof.
  intros Hin Hle. unfold confirm_trade_exit.
  rewrite bool_decide_eq_true_2 by done.
  rewrite bind_run. unfold get_self at 1. rewrite Hle. reflexivity.
Qed.

(** C5: for every [exit_reason] among ['roi'], ['stop_loss'],
    ['stoploss_on_exchange'], ['trailing_stop_loss'] and ['exit_signal'],
    [confirm_trade_exit] returns [False] whenever
    [trade.calc_profit_ratio(rate) <= min_profit]; with [min_profit] at its
    0.0025, a profit of exactly 0.0025 is rejected; for ['force_exit'] and
    ['emergency_exit'] the check is bypassed and the result of the
    superclass is returned as it is, the machine untouched. *)
Theorem confirm_trade_exit_spec (h : host) (m : machine) (pair : string)
    (trade : Trade) (order_type : string) (amount rate : float)
    (time_in_force exit_reason : string) (current_time : datetime) :
  let run := confirm_trade_exit h pair trade order_type amount rate time_in_force
               exit_reason current_time m in
  (exit_reason ∈ profit_checked ->
   le (calc_profit_ratio h trade rate) (min_profit (self m)) = true ->
   exists m', run = Ok (false, m') /\ self m' = self m)
  /\ (exit_reason ∈ profit_checked ->
      min_profit (self m) = 0.0025%float ->
      calc_profit_ratio h trade rate = 0.0025%float ->
      exists m', run = Ok (false, m') /\ self m' = self m)
  /\ (exit_reason = "force_exit"%string \/ exit_reason = "emergency_exit"%string ->
      run = Ok (super_confirm_trade_exit h pair trade order_type amount rate
                  time_in_force exit_reason current_time, m)).
Proof.
  intros run. split; [|split].
  - apply confirm_trade_exit_rejects.
  - intros Hin Hmin Hprofit. apply confirm_trade_exit_rejects; [done|].
    rewrite Hmin, Hprofit. reflexivity.
  - intros [-> | ->]; reflexivity.
Qed.

(** An exit on ROI at the entry rate makes no profit and is rejected. *)
Lemma confirm_trade_exit_spec_witness :
  exists m',
    confirm_trade_exit demo_host "BTC/USDT" btc "limit" 1 100 "GTC" "roi"
      {| minute := 0; second := 0 |} demo_machine = Ok (false, m')
    /\ self m' = self demo_machine.
Proof.
  apply (proj1 (confirm_trade_exit_spec demo_host demo_machine "BTC/USDT" btc "limit"
                  1 100 "GTC" "roi" {| minute := 0; second := 0 |})).
  - apply elem_of_profit_checked. by left.
  - reflexivity.
Defined.

(** ** Leverage *)

(** C9: [leverage] returns [leverage_configuration\[f"{pair}_{side}"\]] when
    that key is present, otherwise [leverage_configuration\['default'\]] when
    present, otherwise 1.0.  The value is a function of [pair], [side] and
    [leverage_configuration] alone: it is the same for every
    [proposed_leverage] and [max_leverage], and so is not clamped to
    [\[1.0, max_leverage\]]. *)
Theorem leverage_spec (m : machine) (pair : string) (current_time : datetime)
    (current_rate proposed_leverage max_leverage : float) (entry_tag : option string)
    (side : string) :
  let cfg := leverage_configuration (self m) in
  let pairkey := (pair +:+ "_" +:+ side)%string in
  exists v m',
    leverage pair current_time current_rate proposed_leverage max_leverage
      entry_tag side m = Ok (v, m')
    /\ self m' = self m
    /\ (forall w, dict_get pairkey cfg = Some w -> v = w)
    /\ (dict_get pairkey cfg = None ->
        forall w, dict_get "default" cfg = Some w -> v = w)
    /\ (dict_get pairkey cfg = None -> dict_get "default" cfg = None -> v = NFloat 1)
    /\ (forall current_time' current_rate' proposed_leverage' max_leverage' entry_tag',
          leverage pair current_time' current_rate' proposed_leverage' max_leverage'
            entry_tag' side m = Ok (v, m')).
Proof.
  intros cfg pairkey. unfold leverage.
  rewrite bind_run. unfold get_self at 1.
  fold cfg. fold pairkey.
  destruct (dict_get pairkey cfg) as [w|] eqn:Hkey;
    [|destruct (dict_get "default" cfg) as [w|] eqn:Hdef].
  all: run; eexists _, _; split; [reflexivity|]; split; [reflexivity|].
  all: repeat split; try congruence.
  all: intros; unfold cfg in *; rewrite ?Hkey, ?Hdef; reflexivity.
Qed.

(** A configured leverage above [max_leverage] is returned as it is. *)
Example leverage_above_max_leverage :
  fst <$> (match leverage "BTC/USDT" {| minute := 0; second := 0 |} 100 1 2 None "long"
                   demo_machine with
           | Ok r => Some r | Raise _ => None end) = Some (NFloat 3).
Proof. reflexivity. Qed.

(** ** Dictionaries *)

Lemma dict_get_set_eq {V} (k : string) (v : V) (d : dict V) :
  dict_get k (dict_set k v d) = Some v.
Proof.
  induction d as [|[k' v'] d IH]; cbn.
  - by rewrite String.eqb_refl.
  - destruct (String.eqb k k') eqn:Hk; cbn; rewrite Hk; done.
Qed.

Lemma dict_get_set_ne {V} (k k' : string) (v : V) (d : dict V) :
  k <> k' -> dict_get k' (dict_set k v d) = dict_get k' d.
Proof.
  intros Hne. induction d as [|[k0 v0] d IH]; cbn.
  - by rewrite (proj2 (String.eqb_neq k' k)).
  - destruct (String.eqb k k0) eqn:Hk; cbn; [|by rewrite IH].
    apply String.eqb_eq in Hk as <-.
    by rewrite (proj2 (String.eqb_neq k' k)).
Qed.

(** ** The templated callbacks *)

Lemma set_column_run dataframe column v m d :
  heap m !! dataframe = Some d ->
  set_column dataframe column v m =
  Ok (tt, {| self := self m;
             heap := <[dataframe := loc_set_column column v d]> (heap m);
             trace := trace m |}).
Proof. intros Hd. unfold set_column. by rewrite Hd. Qed.

Lemma cell_set_eq d column v i :
  (i < nrows d)%nat -> cell (loc_set_column column v d) column i = Some v.
Proof.
  intros Hi. unfold cell, loc_set_column; cbn.
  rewrite dict_get_set_eq. by apply lookup_replicate_2.
Qed.

Lemma cell_set_ne d column column' v i :
  column <> column' ->
  cell (loc_set_column column v d) column' i = cell d column' i.
Proof.
  intros Hne. unfold cell, loc_set_column; cbn. by rewrite dict_get_set_ne.
Qed.

(** Setting two signal columns of the dataframe [dataframe] to 0. *)
Lemma set_two_columns_run dataframe c1 c2 m d :
  c1 <> c2 ->
  heap m !! dataframe = Some d ->
  exists m' d',
    (set_column dataframe c1 (VInt 0);; set_column dataframe c2 (VInt 0);;
     mret dataframe) m = Ok (dataframe, m')
    /\ self m' = self m /\ trace m' = trace m
    /\ heap m' = <[dataframe := d']> (heap m)
    /\ nrows d' = nrows d
    /\ (forall i, (i < nrows d)%nat ->
          cell d' c1 i = Some (VInt 0) /\ cell d' c2 i = Some (VInt 0))
    /\ (forall column i, column <> c1 -> column <> c2 ->
          cell d' column i = cell d column i).
Proof.
  intros Hne Hd.
  rewrite bind_run, (set_column_run _ _ _ _ d Hd).
  rewrite bind_run, (set_column_run _ _ _ _ (loc_set_column c1 (VInt 0) d))
    by (cbn; apply lookup_insert_eq).
  cbn [self heap trace]. rewrite ret_run.
  eexists _, _. split; [reflexivity|]. cbn [self heap trace].
  split; [done|]. split; [done|]. split; [by rewrite insert_insert_eq|].
  split; [done|]. split.
  - intros i Hi. split.
    + rewrite cell_set_ne by done. by apply cell_set_eq.
    + by apply cell_set_eq.
  - intros column i H1 H2. by rewrite !cell_set_ne.
Qed.

(** C7: the templated callbacks produce no signal.  [populate_indicators]
    returns the dataframe it is given and touches nothing;
    [populate_entry_trend] returns that same dataframe with the columns
    ['enter_long'] and ['enter_short'] at 0 in every row, and
    [populate_exit_trend] with ['exit_long'] and ['exit_short'] at 0 in every
    row; the number of rows and the other columns are as before. *)
Theorem populate_no_signals (m : machine) (dataframe : ref) (metadata : dict string)
    (d : DataFrame) :
  heap m !! dataframe = Some d ->
  populate_indicators dataframe metadata m = Ok (dataframe, m)
  /\ (exists m' d',
        populate_entry_trend dataframe metadata m = Ok (dataframe, m')
        /\ heap m' !! dataframe = Some d'
        /\ nrows d' = nrows d
        /\ (forall i, (i < nrows d)%nat ->
              cell d' "enter_long" i = Some (VInt 0)
              /\ cell d' "enter_short" i = Some (VInt 0))
        /\ (forall column i, column <> "enter_long"%string ->
              column <> "enter_short"%string -> cell d' column i = cell d column i))
  /\ (exists m' d',
        populate_exit_trend dataframe metadata m = Ok (dataframe, m')
        /\ heap m' !! dataframe = Some d'
        /\ nrows d' = nrows d
        /\ (forall i, (i < nrows d)%nat ->
              cell d' "exit_long" i = Some (VInt 0)
              /\ cell d' "exit_short" i = Some (VInt 0))
        /\ (forall column i, column <> "exit_long"%string ->
              column <> "exit_short"%string -> cell d' column i = cell d column i)).
Proof.
  intros Hd. split; [reflexivity|]. split.
  - destruct (set_two_columns_run dataframe "enter_long" "enter_short" m d)
      as (m' & d' & Hrun & _ & _ & Hheap & Hrest); [done|done|].
    exists m', d'. split; [exact Hrun|]. split; [|exact Hrest].
    rewrite Hheap. apply lookup_insert_eq.
  - destruct (set_two_columns_run dataframe "exit_long" "exit_short" m d)
      as (m' & d' & Hrun & _ & _ & Hheap & Hrest); [done|done|].
    exists m', d'. split; [exact Hrun|]. split; [|exact Hrest].
    rewrite Hheap. apply lookup_insert_eq.
Qed.

Lemma populate_no_signals_witness :
  populate_indicators 1%positive [] candles_machine = Ok (1%positive, candles_machine)
  /\ (exists m' d',
        populate_entry_trend 1%positive [] candles_machine = Ok (1%positive, m')
        /\ heap m' !! 1%positive = Some d'
        /\ nrows d' = nrows candles
        /\ (forall i, (i < nrows candles)%nat ->
              cell d' "enter_long" i = Some (VInt 0)
              /\ cell d' "enter_short" i = Some (VInt 0))
        /\ (forall column i, column <> "enter_long"%string ->
              column <> "enter_short"%string ->
              cell d' column i = cell candles column i))
  /\ (exists m' d',
        populate_exit_trend 1%positive [] candles_machine = Ok (1%positive, m')
        /\ heap m' !! 1%positive = Some d'
        /\ nrows d' = nrows candles
        /\ (forall i, (i < nrows candles)%nat ->
              cell d' "exit_long" i = Some (VInt 0)
              /\ cell d' "exit_short" i = Some (VInt 0))
        /\ (forall column i, column <> "exit_long"%string ->
              column <> "exit_short"%string ->
              cell d' column i = cell candles column i)).
Proof.
  apply (populate_no_signals candles_machine 1%positive [] candles).
  apply lookup_singleton_eq.
Defined.

(** ** The cache of dataframes *)

Lemma with_cache_id c m : cache (self m) = Some c -> with_cache c m = m.
Proof.
  destruct m as [[] ? ?]; cbn. intros ->. reflexivity.
Qed.

Lemma with_cache_twice c1 c2 m : with_cache c2 (with_cache c1 m) = with_cache c2 m.
Proof. reflexivity. Qed.

Lemma with_cache_add_events c evs m :
  with_cache c (add_events evs m) = add_events evs (with_cache c m).
Proof. reflexivity. Qed.

Lemma get_cache_run m c :
  cache (self m) = Some c -> get_cache m = Ok (c, m).
Proof.
  intros Hc. unfold get_cache. rewrite bind_run. unfold get_self. by rewrite Hc.
Qed.

Lemma get_cache_absent m :
  cache (self m) = None -> get_cache m = Raise (KeyError "cache").
Proof.
  intros Hc. unfold get_cache. rewrite bind_run. unfold get_self. by rewrite Hc.
Qed.

(** The first loop of [cleanup_cache] gathers the keys of the outdated
    entries, in the order of the items. *)
Lemma scan_cache_run h now items : forall outdatedkeys m,
  exists evs,
    scan_cache h now items outdatedkeys m =
      Ok (outdatedkeys ++ (List.filter (fun kv => outdated h now kv.2) items).*1,
          add_events evs m)
    /\ notifications evs = [].
Proof.
  induction items as [|[key e] items IH]; intros acc m.
  - exists []. cbn. by rewrite app_nil_r, add_events_nil.
  - cbn [scan_cache List.filter snd]. destruct (outdated h now e).
    + rewrite bind_run, log_run.
      match goal with |- context [scan_cache h now items ?a ?m'] =>
        destruct (IH a m') as (evs & Hrun & Hq) end.
      eexists. rewrite Hrun, add_events_app. split.
      * cbn. by rewrite <- app_assoc.
      * rewrite notifications_app, Hq, log_quiet by auto. done.
    + apply IH.
Qed.

Lemma del_cache_run key c m :
  cache (self m) = Some c -> is_Some (c !! key) ->
  del_cache key m = Ok (tt, with_cache (delete key c) m).
Proof.
  intros Hc [e He]. unfold del_cache.
  rewrite bind_run, (get_cache_run m c Hc), He. reflexivity.
Qed.

(** The second loop deletes them, one by one. *)
Lemma for_each_del_cache_run keys : forall c m,
  cache (self m) = Some c ->
  NoDup keys ->
  Forall (fun key => is_Some (c !! key)) keys ->
  exists c',
    for_each keys del_cache m = Ok (tt, with_cache c' m)
    /\ forall key, c' !! key = if decide (key ∈ keys) then None else c !! key.
Proof.
  induction keys as [|k keys IH]; intros c m Hc Hnd Hin.
  - exists c. cbn. rewrite ret_run, with_cache_id by done. split; [done|].
    intros key. by rewrite decide_False by apply not_elem_of_nil.
  - apply NoDup_cons in Hnd as [Hk Hnd].
    apply Forall_cons in Hin as [Hsome Hin].
    cbn [for_each]. rewrite bind_run, (del_cache_run k c m Hc Hsome).
    destruct (IH (delete k c) (with_cache (delete k c) m)) as (c' & Hrun & Hc');
      [done|done| |].
    { rewrite Forall_forall in Hin |- *. intros key Hkey.
      rewrite lookup_delete_ne; [by apply Hin|]. intros ->. done. }
    exists c'. rewrite Hrun, with_cache_twice. split; [done|].
    intros key. rewrite Hc'. destruct (decide (key = k)) as [->|Hne].
    + rewrite decide_False by done. rewrite lookup_delete_eq.
      rewrite decide_True by apply list_elem_of_here. done.
    + rewrite lookup_delete_ne by done.
      destruct (decide (key ∈ keys)).
      * by rewrite decide_True by (by apply list_elem_of_further).
      * rewrite decide_False; [done|]. rewrite elem_of_cons. tauto.
Qed.

Lemma elem_of_outdated_keys h now (c : gmap string cache_entry) key :
  key ∈ (List.filter (fun kv => outdated h now kv.2) (map_to_list c)).*1
  <-> exists e, c !! key = Some e /\ outdated h now e = true.
Proof.
  rewrite list_elem_of_fmap. split.
  - intros ([k e] & -> & Hin). apply list_elem_of_In, filter_In in Hin as [Hin Ho].
    apply list_elem_of_In, elem_of_map_to_list in Hin. eauto.
  - intros (e & He & Ho). exists (key, e). split; [done|].
    apply list_elem_of_In, filter_In. split; [|done].
    by apply list_elem_of_In, elem_of_map_to_list.
Qed.

Lemma NoDup_outdated_keys h now (c : gmap string cache_entry) :
  NoDup (List.filter (fun kv => outdated h now kv.2) (map_to_list c)).*1.
Proof.
  pose proof (NoDup_fst_map_to_list c) as Hnd.
  induction (map_to_list c) as [|[k e] l IH]; cbn in *; [constructor|].
  apply NoDup_cons in Hnd as [Hk Hnd].
  destruct (outdated h now e); cbn; [|by apply IH].
  apply NoDup_cons. split; [|by apply IH].
  intros Hin. apply Hk. apply list_elem_of_fmap in Hin as ([k' e'] & -> & Hin).
  apply list_elem_of_fmap. exists (k', e'). split; [done|].
  apply list_elem_of_In. apply list_elem_of_In, filter_In in Hin. tauto.
Qed.

Lemma cleanup_cache_run h now m c :
  cache (self m) = Some c ->
  exists c' evs,
    cleanup_cache h now m = Ok (tt, add_events evs (with_cache c' m))
    /\ notifications evs = []
    /\ forall key, c' !! key = kept h now (c !! key).
Proof.
  intros Hc. unfold cleanup_cache.
  rewrite bind_run, (get_cache_run m c Hc), bind_run.
  destruct (scan_cache_run h now (map_to_list c) [] m) as (evs & -> & Hq).
  rewrite app_nil_l.
  destruct (for_each_del_cache_run
              (List.filter (fun kv => outdated h now kv.2) (map_to_list c)).*1
              c (add_events evs m)) as (c' & Hrun & Hc'); [done| | |].
  { apply NoDup_outdated_keys. }
  { apply Forall_forall. intros key Hkey.
    apply elem_of_outdated_keys in Hkey as (e & -> & _). by eexists. }
  exists c', evs. rewrite Hrun, with_cache_add_events. split; [done|]. split; [done|].
  intros key. rewrite Hc'. unfold kept. case_decide as Hkey.
  - apply elem_of_outdated_keys in Hkey as (e & -> & ->). done.
  - destruct (c !! key) as [e|] eqn:He; [|done].
    destruct (outdated h now e) eqn:Ho; [|done].
    exfalso. apply Hkey, elem_of_outdated_keys. eauto.
Qed.

(** C3: [cleanup_cache] removes exactly the cache entries whose elapsed
    time since their stored timestamp, in minutes and less the margin of two
    minutes, strictly exceeds [timeframe_to_minutes] of their stored
    timeframe ([outdated]); every other entry is left as it is. *)
Theorem cleanup_cache_spec (h : host) (now : Z) (m : machine)
    (c : gmap string cache_entry) :
  cache (self m) = Some c ->
  exists c' m',
    cleanup_cache h now m = Ok (tt, m')
    /\ cache (self m') = Some c'
    /\ (forall key e, c !! key = Some e ->
          c' !! key = if gt_int (PrimFloat.sub
                                   (PrimFloat.div (total_seconds (now - ce_datetime e)) 60)
                                   2)
                                (timeframe_to_minutes h (ce_tf e))
                      then None else Some e)
    /\ (forall key, c !! key = None -> c' !! key = None)
    /\ heap m' = heap m
    /\ sent m' = sent m.
Proof.
  intros Hc. destruct (cleanup_cache_run h now m c Hc) as (c' & evs & Hrun & Hq & Hc').
  eexists c', _. split; [exact Hrun|]. split; [done|]. split; [|split; [|split]].
  - intros key e He. rewrite Hc', He. reflexivity.
  - intros key He. rewrite Hc', He. reflexivity.
  - reflexivity.
  - rewrite sent_add_events, Hq, app_nil_r. reflexivity.
Qed.

(** Ten minutes after they were stored, the five-minute dataframe is
    removed and the hourly one stays. *)
Lemma cleanup_cache_spec_witness :
  exists c' m',
    cleanup_cache demo_host ten_minutes cached_machine = Ok (tt, m')
    /\ cache (self m') = Some c'
    /\ (forall key e, two_entries !! key = Some e ->
          c' !! key = if gt_int (PrimFloat.sub
                                   (PrimFloat.div
                                      (total_seconds (ten_minutes - ce_datetime e)) 60)
                                   2)
                                (timeframe_to_minutes demo_host (ce_tf e))
                      then None else Some e)
    /\ (forall key, two_entries !! key = None -> c' !! key = None)
    /\ heap m' = heap cached_machine
    /\ sent m' = sent cached_machine.
Proof.
  apply (cleanup_cache_spec demo_host ten_minutes cached_machine two_entries).
  reflexivity.
Defined.

Example outdated_five_minutes :
  outdated demo_host ten_minutes
    {| ce_tf := "5m"; ce_df := 3%positive; ce_datetime := 0 |} = true
  /\ outdated demo_host ten_minutes
       {| ce_tf := "1h"; ce_df := 2%positive; ce_datetime := 0 |} = false.
Proof. split; reflexivity. Qed.

(** The seconds of a long [timedelta] are the rounded exact quotient: past
    [2^53] microseconds the count itself is no float.  With a timeframe of
    150119988 minutes an entry that old is removed. *)
Example total_seconds_past_2_53 :
  total_seconds 9007199400000001 = 0x1.0c6f7a5400001p+33%float
  /\ outdated
       {| get_trades_proxy_open := [];
          ticker_last := ticker_last demo_host;
          calc_profit_ratio := calc_profit_ratio demo_host;
          super_confirm_trade_exit := super_confirm_trade_exit demo_host;
          get_pair_longest_lock := get_pair_longest_lock demo_host;
          timeframe_to_minutes := fun _ => 150119988 |}
       9007199400000001
       {| ce_tf := "150119988m"; ce_df := 3%positive; ce_datetime := 0 |} = true.
Proof. split; reflexivity. Qed.

(** The margin is strict: seven minutes after the update a five-minute
    entry is exactly at the margin and stays. *)
Example outdated_at_the_margin :
  outdated demo_host 420000000
    {| ce_tf := "5m"; ce_df := 3%positive; ce_datetime := 0 |} = false
  /\ outdated demo_host 420000001
       {| ce_tf := "5m"; ce_df := 3%positive; ce_datetime := 0 |} = true.
Proof. split; reflexivity. Qed.

Lemma copy_run df d m :
  heap m !! df = Some d ->
  let r := fresh (dom (heap m)) in
  copy df m = Ok (r, {| self := self m; heap := <[r := d]> (heap m); trace := trace m |})
  /\ heap m !! r = None.
Proof.
  intros Hd r. unfold copy. rewrite Hd. split; [reflexivity|].
  apply not_elem_of_dom. apply is_fresh.
Qed.

Lemma cache_dataframe_run now df pair tf m c d :
  cache (self m) = Some c ->
  heap m !! df = Some d ->
  exists evs r entry_tf,
    cache_dataframe now df pair tf m =
      Ok (tt, {| self := set_cache
                   (Some (<[cache_key pair tf :=
                              {| ce_tf := entry_tf; ce_df := r; ce_datetime := now |}]> c))
                   (self m);
                 heap := <[r := d]> (heap m);
                 trace := trace m ++ evs |})
    /\ heap m !! r = None
    /\ notifications evs = []
    /\ entry_tf = match c !! cache_key pair tf with Some e => ce_tf e | None => tf end.
Proof.
  intros Hc Hd. unfold cache_dataframe.
  rewrite bind_run, (get_cache_run m c Hc), bind_run.
  destruct (c !! cache_key pair tf) as [e|] eqn:He.
  - rewrite ret_run, bind_run.
    destruct (copy_run df d m Hd) as [-> Hfresh].
    exists [], (fresh (dom (heap m))), (ce_tf e).
    rewrite app_nil_r. done.
  - rewrite bind_run, log_run, ret_run, bind_run.
    destruct (copy_run df d (add_events
                (log_events (logger (self m)) (MsgCreatedCache (cache_key pair tf))
                   "INFO" None) m) Hd) as [-> Hfresh].
    eexists _, _, tf. split; [reflexivity|]. split; [exact Hfresh|].
    split; [|done]. by apply log_quiet; left.
Qed.

Lemma get_dataframe_from_cache_run pair tf m c :
  cache (self m) = Some c ->
  get_dataframe_from_cache pair tf m = Ok (ce_df <$> c !! cache_key pair tf, m).
Proof.
  intros Hc. unfold get_dataframe_from_cache.
  rewrite bind_run, (get_cache_run m c Hc). reflexivity.
Qed.

(** C4: after [cache_dataframe(df, pair, tf)],
    [get_dataframe_from_cache(pair, tf)] returns a dataframe equal to [df];
    it is a copy, another object than [df], so that changing [df] in place
    afterwards changes nothing of what the cache returns.  For a key that is
    not in the cache, never stored or removed by [cleanup_cache],
    [get_dataframe_from_cache] returns [None]. *)
Theorem cache_dataframe_spec (now : Z) (df : ref) (pair tf : string) (m : machine)
    (c : gmap string cache_entry) (d : DataFrame) :
  cache (self m) = Some c ->
  heap m !! df = Some d ->
  (exists m1 r,
     cache_dataframe now df pair tf m = Ok (tt, m1)
     /\ get_dataframe_from_cache pair tf m1 = Ok (Some r, m1)
     /\ heap m1 !! r = Some d
     /\ r <> df
     /\ forall d', get_dataframe_from_cache pair tf (mutate df d' m1)
                   = Ok (Some r, mutate df d' m1)
                   /\ heap (mutate df d' m1) !! r = Some d)
  /\ (forall pair' tf', c !! cache_key pair' tf' = None ->
        get_dataframe_from_cache pair' tf' m = Ok (None, m))
  /\ (forall h now' pair' tf' e,
        c !! cache_key pair' tf' = Some e -> outdated h now' e = true ->
        exists m3, cleanup_cache h now' m = Ok (tt, m3)
                   /\ get_dataframe_from_cache pair' tf' m3 = Ok (None, m3)).
Proof.
  intros Hc Hd. split; [|split].
  - destruct (cache_dataframe_run now df pair tf m c d Hc Hd)
      as (evs & r & entry_tf & Hrun & Hfresh & _ & _).
    eexists _, r. split; [exact Hrun|].
    assert (Hne : r <> df) by (intros ->; congruence).
    split; [|split; [|split; [done|]]].
    + erewrite get_dataframe_from_cache_run by reflexivity.
      by rewrite lookup_insert_eq.
    + cbn. apply lookup_insert_eq.
    + intros d'. split.
      * erewrite get_dataframe_from_cache_run by reflexivity.
        by rewrite lookup_insert_eq.
      * cbn. rewrite lookup_insert_ne by done. apply lookup_insert_eq.
  - intros pair' tf' Hnone.
    rewrite (get_dataframe_from_cache_run pair' tf' m c Hc), Hnone. reflexivity.
  - intros h now' pair' tf' e He Ho.
    destruct (cleanup_cache_run h now' m c Hc) as (c' & evs & Hrun & _ & Hc').
    eexists. split; [exact Hrun|].
    erewrite get_dataframe_from_cache_run by reflexivity.
    rewrite Hc', He. cbn. rewrite Ho. reflexivity.
Qed.

Lemma cache_dataframe_spec_witness :
  (exists m1 r,
     cache_dataframe 0 1%positive "BTC/USDT" "1h" cached_machine = Ok (tt, m1)
     /\ get_dataframe_from_cache "BTC/USDT" "1h" m1 = Ok (Some r, m1)
     /\ heap m1 !! r = Some candles
     /\ r <> 1%positive
     /\ forall d', get_dataframe_from_cache "BTC/USDT" "1h" (mutate 1%positive d' m1)
                   = Ok (Some r, mutate 1%positive d' m1)
                   /\ heap (mutate 1%positive d' m1) !! r = Some candles)
  /\ (forall pair' tf', two_entries !! cache_key pair' tf' = None ->
        get_dataframe_from_cache pair' tf' cached_machine = Ok (None, cached_machine))
  /\ (forall h now' pair' tf' e,
        two_entries !! cache_key pair' tf' = Some e -> outdated h now' e = true ->
        exists m3, cleanup_cache h now' cached_machine = Ok (tt, m3)
                   /\ get_dataframe_from_cache pair' tf' m3 = Ok (None, m3)).
Proof.
  apply (cache_dataframe_spec 0 1%positive "BTC/USDT" "1h" cached_machine two_entries
           candles).
  - reflexivity.
  - reflexivity.
Defined.

(** Before [bot_start] there is no cache to store into or to read from. *)
Lemma cache_absent now df pair tf m :
  cache (self m) = None ->
  cache_dataframe now df pair tf m = Raise (KeyError "cache")
  /\ get_dataframe_from_cache pair tf m = Raise (KeyError "cache").
Proof.
  intros Hc. unfold cache_dataframe, get_dataframe_from_cache.
  rewrite !bind_run, (get_cache_absent m Hc). done.
Qed.

(** ** The start of a loop *)

(** What [update_max_trade_count] leaves alone. *)
Lemma update_max_trade_count_frame h m :
  (enable_improved_trade_count (self m) = true ->
   Forall (priced h) (get_trades_proxy_open h)) ->
  exists m' evs,
    update_max_trade_count h m = Ok (tt, m')
    /\ remove_autolock (self m') = remove_autolock (self m)
    /\ cache (self m') = cache (self m)
    /\ heap m' = heap m
    /\ trace m' = trace m ++ evs.
Proof.
  intros Hp. destruct (enable_improved_trade_count (self m)) eqn:Hon.
  - unfold update_max_trade_count.
    rewrite bind_run. unfold get_self at 1. rewrite Hon. cbn [negb].
    rewrite bind_run. unfold get_trade_stoploss_count.
    destruct (count_stoploss_run h _ 0 m (Hp eq_refl)) as (evs & -> & _).
    destruct (ne_int _ _); run; eexists _, _; (split; [reflexivity|]); cbn;
      rewrite <- ?app_assoc; done.
  - exists m, []. rewrite update_max_trade_count_off, app_nil_r by done. done.
Qed.

(** The sanity check after [unlock_reason] only logs. *)
Lemma sanity_check_run h pending : forall m,
  exists evs, for_each pending (check_unlocked h) m = Ok (tt, add_events evs m).
Proof.
  induction pending as [|pair pending IH]; intros m.
  - exists []. by rewrite add_events_nil.
  - cbn [for_each]. rewrite bind_run. unfold check_unlocked at 1. cbv zeta.
    destruct (String.eqb (is_locked_until h pair) "").
    + rewrite ret_run. apply IH.
    + rewrite log_run.
      match goal with |- context [add_events ?evs1 m] =>
        destruct (IH (add_events evs1 m)) as (evs & ->) end.
      eexists. by rewrite add_events_app.
Qed.

Lemma get_remove_autolock_run m pending :
  remove_autolock (self m) = Some pending -> get_remove_autolock m = Ok (pending, m).
Proof.
  intros Hp. unfold get_remove_autolock. rewrite bind_run. unfold get_self.
  by rewrite Hp.
Qed.

(** The periodic tasks, when due, leave the scheduled pairs alone. *)
Lemma periodic_tasks_run h now current_time m :
  (periodic current_time = true ->
   is_Some (cache (self m))
   /\ (enable_improved_trade_count (self m) = true ->
       Forall (priced h) (get_trades_proxy_open h))) ->
  exists m1 evs,
    (if periodic current_time
     then cleanup_cache h now;; update_max_trade_count h
     else mret tt) m = Ok (tt, m1)
    /\ remove_autolock (self m1) = remove_autolock (self m)
    /\ trace m1 = trace m ++ evs.
Proof.
  intros Hdue. destruct (periodic current_time).
  - destruct (Hdue eq_refl) as [[c Hc] Hp].
    destruct (cleanup_cache_run h now m c Hc) as (c' & evs1 & Hrun & _ & _).
    rewrite bind_run, Hrun.
    destruct (update_max_trade_count_frame h (add_events evs1 (with_cache c' m)))
      as (m1 & evs2 & Hrun2 & Hra & _ & _ & Htr); [exact Hp|].
    exists m1, (evs1 ++ evs2). rewrite Hrun2, Hra, Htr. cbn.
    by rewrite app_assoc.
  - exists m, []. by rewrite ret_run, app_nil_r.
Qed.

(** A call that the periodic tasks let through: the scheduled pairs are
    unlocked, then forgotten. *)
Lemma bot_loop_start_run (h : host) (now : Z) (current_time : datetime)
    (m : machine) (pending : list string) :
  remove_autolock (self m) = Some pending ->
  (periodic current_time = true ->
   is_Some (cache (self m))
   /\ (enable_improved_trade_count (self m) = true ->
       Forall (priced h) (get_trades_proxy_open h))) ->
  exists m',
    bot_loop_start h now current_time m = Ok (tt, m')
    /\ remove_autolock (self m') = Some []
    /\ (pending <> [] ->
        exists before this after,
          trace m' = trace m ++ before ++ UnlockReason this "Auto lock" :: after
          /\ remove_autolock this = Some pending).
Proof.
  intros Hpending Hdue. unfold bot_loop_start. fold (periodic current_time).
  destruct (periodic_tasks_run h now current_time m Hdue)
    as (m1 & evs1 & Hrun1 & Hra & Htr).
  rewrite bind_run, Hrun1. rewrite Hpending in Hra.
  rewrite bind_run, (get_remove_autolock_run m1 pending Hra).
  destruct pending as [|pair pending].
  - cbn [length Z.of_nat Z.ltb Z.compare]. run.
    eexists. split; [reflexivity|]. cbn. split; [done|]. done.
  - replace (0 <? Z.of_nat (length (pair :: pending))) with true
      by (symmetry; apply Z.ltb_lt; cbn [length]; lia).
    rewrite !bind_run. unfold get_self at 1, emit at 1.
    rewrite bind_run.
    rewrite bind_run.
    match goal with |- context [for_each (pair :: pending) (check_unlocked h) ?m2] =>
      destruct (sanity_check_run h (pair :: pending) m2) as (evs2 & Hrun2) end.
    rewrite Hrun2.
    rewrite bind_run, (get_remove_autolock_run _ (pair :: pending)) by exact Hra.
    run. eexists. split; [reflexivity|]. cbn. split; [done|].
    intros _. exists evs1, (self m1), (evs2 ++ [SuperBotLoopStart
      (set_remove_autolock (Some []) (self m1)) current_time]).
    split; [|exact Hra]. rewrite Htr.
    by rewrite <- !app_assoc.
Qed.

(** The ticker of an open trade without a price stops the trade count, and
    with it [update_max_trade_count] when the feature is on. *)
Lemma count_stoploss_raises h trades : forall n m,
  Exists (fun t => is_zero (ticker_last h (pair t)) = true) trades ->
  count_stoploss h trades n m = Raise ZeroDivisionError.
Proof.
  induction trades as [|t trades IH]; intros n m Hex.
  - by apply Exists_nil in Hex.
  - cbn [count_stoploss]. rewrite bind_run. unfold lift, truediv.
    destruct (is_zero (ticker_last h (pair t))) eqn:Hz; [reflexivity|].
    apply Exists_cons in Hex as [Hex | Hex]; [congruence|].
    rewrite bind_run, log_run.
    destruct (gt _ _).
    + rewrite bind_run, log_run. by apply IH.
    + by apply IH.
Qed.

Lemma update_max_trade_count_unpriced h m :
  enable_improved_trade_count (self m) = true ->
  Exists (fun t => is_zero (ticker_last h (pair t)) = true) (get_trades_proxy_open h) ->
  update_max_trade_count h m = Raise ZeroDivisionError.
Proof.
  intros Hon Hex. unfold update_max_trade_count.
  rewrite bind_run. unfold get_self at 1. rewrite Hon. cbn [negb].
  rewrite bind_run. unfold get_trade_stoploss_count.
  by rewrite count_stoploss_raises.
Qed.

Lemma priced_or_not h (trades : list Trade) :
  Forall (priced h) trades
  \/ Exists (fun t => is_zero (ticker_last h (pair t)) = true) trades.
Proof.
  induction trades as [|t trades [IH | IH]].
  - left. constructor.
  - destruct (is_zero (ticker_last h (pair t))) eqn:Hz.
    + right. by apply Exists_cons_hd.
    + left. by constructor.
  - right. by apply Exists_cons_tl.
Qed.

(** The periodic tasks, when they raise, end the call. *)
Lemma bot_loop_start_cache_absent h now current_time m :
  periodic current_time = true ->
  cache (self m) = None ->
  bot_loop_start h now current_time m = Raise (KeyError "cache").
Proof.
  intros Hdue Hc. unfold bot_loop_start. fold (periodic current_time). rewrite Hdue.
  unfold cleanup_cache. by rewrite !bind_run, (get_cache_absent m Hc).
Qed.

Lemma bot_loop_start_unpriced h now current_time m :
  periodic current_time = true ->
  is_Some (cache (self m)) ->
  enable_improved_trade_count (self m) = true ->
  Exists (fun t => is_zero (ticker_last h (pair t)) = true) (get_trades_proxy_open h) ->
  bot_loop_start h now current_time m = Raise ZeroDivisionError.
Proof.
  intros Hdue [c Hc] Hon Hex. unfold bot_loop_start. fold (periodic current_time).
  rewrite Hdue.
  destruct (cleanup_cache_run h now m c Hc) as (c' & evs & Hrun & _ & _).
  rewrite !bind_run, Hrun.
  by rewrite update_max_trade_count_unpriced.
Qed.

(** C8 (as the code has it): after every call of [bot_loop_start] that
    returns, the list [custom_info\['remove-autolock'\]] is empty; and when
    the list is not empty at entry to such a call,
    [unlock_reason('Auto lock')] has been called, on a strategy whose list
    still holds the scheduled pairs, before the list was cleared
    ([unlocked_and_cleared]).  The call returns whenever the periodic tasks
    are not due, and when they are due if the cache exists and, with the
    improved trade count on, no open trade has a ticker price of zero.
    Otherwise the periodic tasks raise, [KeyError('cache')] or
    [ZeroDivisionError], and the call ends there without returning. *)
Theorem bot_loop_start_spec (h : host) (now : Z) (current_time : datetime)
    (m : machine) (pending : list string) :
  remove_autolock (self m) = Some pending ->
  ((periodic current_time = true ->
    is_Some (cache (self m))
    /\ (enable_improved_trade_count (self m) = true ->
        Forall (priced h) (get_trades_proxy_open h))) ->
   exists m',
     bot_loop_start h now current_time m = Ok (tt, m')
     /\ unlocked_and_cleared pending m m')
  /\ (forall m',
        bot_loop_start h now current_time m = Ok (tt, m') ->
        unlocked_and_cleared pending m m')
  /\ (periodic current_time = true ->
      cache (self m) = None ->
      bot_loop_start h now current_time m = Raise (KeyError "cache"))
  /\ (periodic current_time = true ->
      is_Some (cache (self m)) ->
      enable_improved_trade_count (self m) = true ->
      Exists (fun t => is_zero (ticker_last h (pair t)) = true)
        (get_trades_proxy_open h) ->
      bot_loop_start h now current_time m = Raise ZeroDivisionError).
Proof.
  intros Hpending.
  split; [|split; [|split]].
  - intros Hdue. exact (bot_loop_start_run h now current_time m pending Hpending Hdue).
  - intros m' Hrun.
    assert (Hret : (periodic current_time = true ->
                    is_Some (cache (self m))
                    /\ (enable_improved_trade_count (self m) = true ->
                        Forall (priced h) (get_trades_proxy_open h))) ->
                   unlocked_and_cleared pending m m').
    { intros Hdue.
      destruct (bot_loop_start_run h now current_time m pending Hpending Hdue)
        as (m'' & Hrun' & Hdone).
      rewrite Hrun' in Hrun. by injection Hrun as <-. }
    apply Hret. intros Hdue.
    destruct (cache (self m)) as [c|] eqn:Hc.
    2: { by rewrite (bot_loop_start_cache_absent h now current_time m Hdue Hc) in Hrun. }
    split; [by eexists|]. intros Hon.
    destruct (priced_or_not h (get_trades_proxy_open h)) as [Hp | Hex]; [exact Hp|].
    rewrite (bot_loop_start_unpriced h now current_time m Hdue) in Hrun;
      [discriminate Hrun| |exact Hon|exact Hex].
    rewrite Hc. by eexists.
  - apply bot_loop_start_cache_absent.
  - apply bot_loop_start_unpriced.
Qed.

(** With two pairs scheduled, at a five-minute mark on a market with
    prices: the cache is cleaned, the limit updated, the host asked to
    unlock, and the list is empty. *)
Lemma bot_loop_start_spec_witness :
  exists m',
    bot_loop_start demo_host 0 {| minute := 5; second := 0 |} scheduled_machine
      = Ok (tt, m')
    /\ unlocked_and_cleared ["BTC/USDT"; "ETH/USDT"]%string scheduled_machine m'.
Proof.
  apply (proj1 (bot_loop_start_spec demo_host 0 {| minute := 5; second := 0 |}
                  scheduled_machine ["BTC/USDT"; "ETH/USDT"]%string eq_refl)).
  intros _. split.
  - eexists. reflexivity.
  - intros _. repeat constructor.
Defined.

(** C8 as stated fails for the calls that do not return: at a five-minute
    mark, with the improved trade count on, two pairs scheduled and a ticker
    without a price, the call raises [ZeroDivisionError] in the periodic
    tasks; it never reaches the lines that call [unlock_reason] and clear the
    list. *)
Lemma bot_loop_start_stops_before_unlock :
  remove_autolock (self scheduled_machine) = Some ["BTC/USDT"; "ETH/USDT"]%string
  /\ periodic {| minute := 5; second := 0 |} = true
  /\ enable_improved_trade_count (self scheduled_machine) = true
  /\ bot_loop_start halted_host 0 {| minute := 5; second := 0 |} scheduled_machine
     = Raise ZeroDivisionError.
Proof.
  split; [reflexivity|]. split; [reflexivity|]. split; [reflexivity|].
  apply bot_loop_start_unpriced.
  - reflexivity.
  - eexists. reflexivity.
  - reflexivity.
  - apply Exists_cons_hd. reflexivity.
Qed.

(** ** Construction *)

Lemma dict_set_app_fresh {V} (k : string) (v v' : V) (pre rest : dict V) :
  k ∉ dict_keys pre ->
  dict_set k v' (pre ++ (k, v) :: rest) = pre ++ (k, v') :: rest.
Proof.
  induction pre as [|[k0 v0] pre IH]; intros Hk; cbn.
  - by rewrite String.eqb_refl.
  - cbn in Hk. apply not_elem_of_cons in Hk as [Hne Hk].
    rewrite (proj2 (String.eqb_neq k k0)) by done. by rewrite IH.
Qed.

(** The loop [for k, v in d.items(): d\[k\] = f(v)] maps [f] over the
    values of a dictionary, in place. *)
Lemma update_items_run {V} (f : V -> result V) (items : dict V) :
  forall (pre items' : dict V),
    NoDup (dict_keys (pre ++ items)) ->
    Forall2 (fun kv kv' => kv'.1 = kv.1 /\ f kv.2 = Ok kv'.2) items items' ->
    update_items f items (pre ++ items) = Ok (pre ++ items').
Proof.
  induction items as [|[k v] items IH]; intros pre items' Hnd Hall.
  - apply Forall2_nil_inv_l in Hall as ->. reflexivity.
  - apply Forall2_cons_inv_l in Hall as ([k' v'] & rest' & [Hk Hv] & Hall & ->).
    cbn in Hk, Hv. subst k'. cbn [update_items]. rewrite Hv.
    unfold dict_keys in Hnd. rewrite map_app in Hnd. cbn in Hnd.
    rewrite dict_set_app_fresh.
    2: { apply NoDup_app in Hnd as (_ & Hdisj & _). intros Hin.
         apply (Hdisj k Hin). apply list_elem_of_here. }
    change (pre ++ (k, v') :: items) with (pre ++ [(k, v')] ++ items).
    change (pre ++ (k, v') :: rest') with (pre ++ [(k, v')] ++ rest').
    rewrite !app_assoc. apply IH; [|done].
    unfold dict_keys. rewrite !map_app. cbn. by rewrite <- app_assoc.
Qed.

Lemma min_from_floats (xs : list float) : forall x,
  min_from (NFloat x) (NFloat <$> xs) = NFloat (float_min x xs).
Proof.
  unfold min_from, float_min.
  induction xs as [|y xs IH]; intros x; cbn; [done|].
  destruct (PrimFloat.ltb y x); apply IH.
Qed.

Lemma float_min_elem_of (xs : list float) : forall x, float_min x xs ∈ x :: xs.
Proof.
  unfold float_min.
  induction xs as [|y xs IH]; intros x; cbn.
  - apply list_elem_of_here.
  - destruct (PrimFloat.ltb y x).
    + apply list_elem_of_further, IH.
    + specialize (IH x). apply elem_of_cons in IH as [-> | Hin].
      * apply list_elem_of_here.
      * by apply list_elem_of_further, list_elem_of_further.
Qed.

Lemma converted_floats raw lc :
  Forall2 converted raw lc ->
  Forall2 (fun kv kv' => kv'.1 = kv.1
             /\ match to_float kv.2 with Ok x => Ok (NFloat x) | Raise e => Raise e end
                = Ok kv'.2)
    raw ((fun kx => (kx.1, NFloat kx.2)) <$> lc).
Proof.
  induction 1 as [|[k v] [k' x] raw lc [Hk Hv] _ IH]; cbn; constructor; [|done].
  cbn in *. by rewrite Hv.
Qed.

(** *** The order of floats

    [<] on floats is a strict order (it is read off the sign, exponent and
    mantissa), so [min] does return a minimum. *)

Ltac compare_cases :=
  repeat match goal with
  | H : context [Pos.compare_cont Eq ?a ?b] |- _ =>
      change (Pos.compare_cont Eq a b) with (Pos.compare a b) in H;
      destruct (Pos.compare_spec a b); cbn in H
  | H : context [Z.compare ?a ?b] |- _ =>
      destruct (Z.compare_spec a b); cbn in H
  | |- context [Pos.compare_cont Eq ?a ?b] =>
      change (Pos.compare_cont Eq a b) with (Pos.compare a b);
      destruct (Pos.compare_spec a b); cbn
  | |- context [Z.compare ?a ?b] =>
      destruct (Z.compare_spec a b); cbn
  end.

Lemma SFltb_trans x y z :
  SFltb x y = true -> SFltb y z = true -> SFltb x z = true.
Proof.
  unfold SFltb, SFcompare.
  destruct x as [[]|[]| |[] mx ex], y as [[]|[]| |[] my ey], z as [[]|[]| |[] mz ez];
    intros Hxy Hyz; try discriminate; try reflexivity;
    compare_cases; try discriminate; try reflexivity; try lia.
Qed.

Lemma SFltb_asym x y : SFltb x y = true -> SFltb y x = false.
Proof.
  unfold SFltb, SFcompare.
  destruct x as [[]|[]| |[] mx ex], y as [[]|[]| |[] my ey];
    intros Hxy; try discriminate; try reflexivity;
    compare_cases; try discriminate; try reflexivity; try lia.
Qed.

Lemma ltb_trans (x y z : float) :
  PrimFloat.ltb x y = true -> PrimFloat.ltb y z = true -> PrimFloat.ltb x z = true.
Proof. rewrite !ltb_spec. apply SFltb_trans. Qed.

Lemma ltb_asym (x y : float) : PrimFloat.ltb x y = true -> PrimFloat.ltb y x = false.
Proof. rewrite !ltb_spec. apply SFltb_asym. Qed.

Lemma ltb_irrefl (x : float) : PrimFloat.ltb x x = false.
Proof.
  destruct (PrimFloat.ltb x x) eqn:Hx; [|done].
  by rewrite (ltb_asym x x Hx) in Hx.
Qed.

(** Nothing is [<] than a float that is below one it is not [<] than. *)
Lemma not_ltb_below (y r b : float) :
  r = b \/ PrimFloat.ltb r b = true ->
  PrimFloat.ltb y b = false -> PrimFloat.ltb y r = false.
Proof.
  intros [-> | Hrb] Hyb; [done|].
  destruct (PrimFloat.ltb y r) eqn:Hyr; [|done].
  by rewrite (ltb_trans y r b Hyr Hrb) in Hyb.
Qed.

Lemma float_min_below (xs : list float) : forall x,
  float_min x xs = x \/ PrimFloat.ltb (float_min x xs) x = true.
Proof.
  unfold float_min.
  induction xs as [|y xs IH]; intros x; cbn; [by left|].
  destruct (PrimFloat.ltb y x) eqn:Hyx; [|apply IH].
  right. destruct (IH y) as [-> | Hlt]; [done|]. by eapply ltb_trans.
Qed.

Lemma float_min_least (xs : list float) : forall x y,
  y ∈ x :: xs -> PrimFloat.ltb y (float_min x xs) = false.
Proof.
  induction xs as [|y0 xs IH]; intros x y Hy.
  - apply list_elem_of_singleton in Hy as ->. apply ltb_irrefl.
  - change (float_min x (y0 :: xs))
      with (float_min (if PrimFloat.ltb y0 x then y0 else x) xs).
    destruct (PrimFloat.ltb y0 x) eqn:Hy0.
    + apply elem_of_cons in Hy as [-> | Hy]; [|by apply IH].
      apply (not_ltb_below x (float_min y0 xs) y0 (float_min_below xs y0)).
      by apply ltb_asym.
    + apply elem_of_cons in Hy as [-> | Hy].
      * apply IH, list_elem_of_here.
      * apply elem_of_cons in Hy as [-> | Hy].
        -- by apply (not_ltb_below y0 (float_min x xs) x (float_min_below xs x)).
        -- apply IH. by apply list_elem_of_further.
Qed.

Lemma dict_values_floats (lc : list (string * float)) :
  dict_values ((fun kx : string * float => (kx.1, NFloat kx.2)) <$> lc)
  = NFloat <$> dict_values lc.
Proof. induction lc as [|[k x] lc IH]; cbn; [done|]. by f_equal. Qed.

(** C10: after [__init__], every value of [leverage_configuration] is the
    float it converts to; every value [v] of [minimal_roi] has become
    [round(v * L, 4)] and [stoploss] has been multiplied by [L], where [L]
    is the minimum of the converted values of [leverage_configuration] (one
    of them, with none smaller) when there is one and 1.0 otherwise; and
    [config_max_trades] is [config\['max_open_trades'\]] when that key holds
    an int and 0 otherwise. *)
Theorem init_spec (round : float -> Z -> float) (cls : class_attributes)
    (config : gmap string value) (lc : dict float) :
  NoDup (dict_keys (cls_leverage_configuration cls)) ->
  NoDup (dict_keys (cls_minimal_roi cls)) ->
  Forall2 converted (cls_leverage_configuration cls) lc ->
  exists (s : strategy) (L : float),
    __init__ round cls config = Ok s
    /\ leverage_configuration s = (fun kx => (kx.1, NFloat kx.2)) <$> lc
    /\ minimal_roi s
       = (fun kv => (kv.1, round (kv.2 * L)%float 4)) <$> cls_minimal_roi cls
    /\ stoploss s = (cls_stoploss cls * L)%float
    /\ (lc = [] -> L = 1%float)
    /\ (lc <> [] ->
        L ∈ dict_values lc
        /\ forall x, x ∈ dict_values lc -> PrimFloat.ltb x L = false)
    /\ (forall v, config !! "max_open_trades" = Some v -> is_int v = true ->
          VInt (config_max_trades s) = v)
    /\ ((forall v, config !! "max_open_trades" = Some v -> is_int v = false) ->
        config_max_trades s = 0).
Proof.
  intros Hnd1 Hnd2 Hconv.
  set (L := match dict_values lc with
            | x :: xs => float_min x xs
            | [] => 1%float
            end).
  assert (Hlev : match dict_values ((fun kx : string * float => (kx.1, NFloat kx.2)) <$> lc)
                 with
                 | v :: vs => min_from v vs
                 | [] => NFloat 1
                 end = NFloat L).
  { subst L. rewrite dict_values_floats.
    destruct lc as [|[k x] lc]; [done|]. cbn. apply min_from_floats. }
  exists
    {| logger := true;
       min_profit := cls_min_profit cls;
       minimal_roi := (fun kv => (kv.1, round (kv.2 * L)%float 4)) <$> cls_minimal_roi cls;
       stoploss := (cls_stoploss cls * L)%float;
       leverage_configuration := (fun kx => (kx.1, NFloat kx.2)) <$> lc;
       cache := None;
       remove_autolock := None;
       config_max_trades := match config !! "max_open_trades" with
                            | Some (VInt n) => n
                            | _ => 0
                            end;
       enable_improved_trade_count := cls_enable_improved_trade_count cls;
       max_open_trades := cls_max_open_trades cls;
       config := config |}, L.
  split.
  - unfold __init__.
    rewrite (update_items_run _ (cls_leverage_configuration cls) [] _ Hnd1
               (converted_floats _ _ Hconv)).
    cbn [app]. rewrite Hlev.
    rewrite (update_items_run _ (cls_minimal_roi cls) []
               ((fun kv => (kv.1, round (kv.2 * L)%float 4)) <$> cls_minimal_roi cls)
               Hnd2).
    + reflexivity.
    + clear. induction (cls_minimal_roi cls) as [|[k v] d IH]; cbn; constructor; done.
  - cbn. repeat split.
    + intros ->. reflexivity.
    + subst L. destruct lc as [|[k x] lc]; [done|]. cbn. apply float_min_elem_of.
    + subst L. destruct lc as [|[k x] lc]; [done|]. cbn. apply float_min_least.
    + intros v ->. by destruct v.
    + intros Hno. destruct (config !! "max_open_trades") as [[]|] eqn:Hc; try done.
      by specialize (Hno _ eq_refl).
Qed.

(** The derived strategy, configured for three open trades: the leverage
    is 2, the smaller of 3.0 and 2.0. *)
Lemma init_spec_witness :
  exists (s : strategy) (L : float),
    __init__ round_of_exact leveraged {["max_open_trades"%string := VInt 3]} = Ok s
    /\ leverage_configuration s
       = (fun kx => (kx.1, NFloat kx.2))
           <$> [("default"%string, 3%float); ("BTC/USDT_long"%string, 2%float)]
    /\ minimal_roi s
       = (fun kv => (kv.1, round_of_exact (kv.2 * L)%float 4))
           <$> cls_minimal_roi leveraged
    /\ stoploss s = (cls_stoploss leveraged * L)%float
    /\ ([("default"%string, 3%float); ("BTC/USDT_long"%string, 2%float)] = [] ->
        L = 1%float)
    /\ ([("default"%string, 3%float); ("BTC/USDT_long"%string, 2%float)] <> [] ->
        L ∈ dict_values [("default"%string, 3%float); ("BTC/USDT_long"%string, 2%float)]
        /\ forall x,
             x ∈ dict_values
                   [("default"%string, 3%float); ("BTC/USDT_long"%string, 2%float)] ->
             PrimFloat.ltb x L = false)
    /\ (forall v,
          ({["max_open_trades"%string := VInt 3]} : gmap string value)
            !! "max_open_trades" = Some v ->
          is_int v = true -> VInt (config_max_trades s) = v)
    /\ ((forall v,
           ({["max_open_trades"%string := VInt 3]} : gmap string value)
             !! "max_open_trades" = Some v ->
           is_int v = false) ->
        config_max_trades s = 0).
Proof.
  apply (init_spec round_of_exact leveraged {["max_open_trades"%string := VInt 3]}
           [("default"%string, 3%float); ("BTC/USDT_long"%string, 2%float)]).
  - repeat constructor; cbn; rewrite ?elem_of_cons, ?elem_of_nil; intuition discriminate.
  - repeat constructor; cbn; rewrite ?elem_of_cons, ?elem_of_nil; intuition discriminate.
  - repeat constructor.
Defined.

Example init_leveraged :
  match __init__ round_of_exact leveraged {["max_open_trades"%string := VInt 3]} with
  | Ok s => Some (minimal_roi s, stoploss s, config_max_trades s)
  | Raise _ => None
  end = Some ([("0"%string, 0.02%float); ("60"%string, 0.01%float)], (-0.5)%float, 3).
Proof. reflexivity. Qed.

(** [BaseStrategy] itself has no leverage configured: its ROI table is
    rounded and kept, and without [max_open_trades] in the configuration
    [config_max_trades] stays 0. *)
Example init_base_strategy :
  match __init__ round_of_exact (BaseStrategy VNone) ∅ with
  | Ok s => Some (leverage_configuration s, minimal_roi s, stoploss s, config_max_trades s)
  | Raise _ => None
  end = Some ([], [("0"%string, 0.01%float)], (-0.99)%float, 0).
Proof. reflexivity. Qed.

(** ** From [bot_start] to the first loops *)

(** [bot_start] creates the cache and the list that the other methods
    expect. *)
Lemma bot_start_run h m :
  (enable_improved_trade_count (self m) = true ->
   Forall (priced h) (get_trades_proxy_open h)) ->
  exists m',
    bot_start h m = Ok (tt, m')
    /\ cache (self m') = Some ∅
    /\ remove_autolock (self m') = Some [].
Proof.
  intros Hp. unfold bot_start.
  rewrite !bind_run. unfold modify_self at 1. rewrite bind_run.
  unfold modify_self at 1. rewrite bind_run. unfold get_self at 1.
  rewrite bind_run. unfold emit at 1. rewrite bind_run, log_run, bind_run, log_run.
  match goal with |- context [update_max_trade_count h ?m1] =>
    destruct (update_max_trade_count_frame h m1) as (m' & evs & Hrun & Hra & Hc & _);
      [exact Hp|] end.
  exists m'. rewrite Hrun, Hra, Hc. done.
Qed.

Lemma schedule_remove_autolock_run pair pending m :
  remove_autolock (self m) = Some pending ->
  exists m',
    schedule_remove_autolock pair m = Ok (tt, m')
    /\ remove_autolock (self m') = Some (pending ++ [pair]).
Proof.
  intros Hp. unfold schedule_remove_autolock.
  rewrite bind_run, (get_remove_autolock_run m pending Hp).
  run. eexists. split; reflexivity.
Qed.

(** When the trade count raises in the periodic tasks, the call stops
    there, before the scheduled pairs are looked at. *)
Example bot_loop_start_raises :
  bot_loop_start
    {| get_trades_proxy_open := [btc];
       ticker_last := fun _ => 0%float;
       calc_profit_ratio := calc_profit_ratio demo_host;
       super_confirm_trade_exit := super_confirm_trade_exit demo_host;
       get_pair_longest_lock := get_pair_longest_lock demo_host;
       timeframe_to_minutes := demo_timeframe_to_minutes |}
    0 {| minute := 5; second := 0 |} scheduled_machine
  = Raise ZeroDivisionError.
Proof. vm_compute. reflexivity. Qed.

(* ===================================================================== *)
(** * Further properties of the methods                                   *)
(* ===================================================================== *)

(** ** [log] *)

(** X1: with [notify=True], [log] sends the message once, whatever the
    level and whether or not a logger is set; it changes nothing else than
    the trace. *)
Theorem log_notify_true_sends (msg : message) (level : string) (m : machine) :
  exists m',
    log msg level (Some true) m = Ok (tt, m')
    /\ sent m' = sent m ++ [msg]
    /\ self m' = self m /\ heap m' = heap m.
Proof.
  eexists. split; [apply log_run|]. rewrite sent_add_events.
  split; [|done]. f_equal. unfold log_events.
  repeat case_match; reflexivity.
Qed.

(** X2: with the logger set and [notify] left out, [log] sends a
    notification exactly for the levels ['WARNING'] and ['ERROR']; for
    ['INFO'], ['DEBUG'] and any other level it sends none. *)
Theorem log_default_notifies (msg : message) (level : string) (m : machine) :
  logger (self m) = true ->
  exists m',
    log msg level None m = Ok (tt, m')
    /\ sent m' = sent m ++ (if String.eqb level "WARNING" || String.eqb level "ERROR"
                            then [msg] else []).
Proof.
  intros Hl. eexists. split; [apply log_run|].
  rewrite sent_add_events, Hl. f_equal. unfold log_events.
  destruct (String.eqb level "INFO") eqn:H1.
  { apply String.eqb_eq in H1 as ->. reflexivity. }
  destruct (String.eqb level "DEBUG") eqn:H2.
  { apply String.eqb_eq in H2 as ->. reflexivity. }
  destruct (String.eqb level "WARNING"); [reflexivity|].
  destruct (String.eqb level "ERROR"); reflexivity.
Qed.

Lemma log_default_notifies_witness :
  exists m',
    log MsgVersion "ERROR" None demo_machine = Ok (tt, m')
    /\ sent m' = sent demo_machine
                 ++ (if String.eqb "ERROR" "WARNING" || String.eqb "ERROR" "ERROR"
                     then [MsgVersion] else []).
Proof. apply (log_default_notifies MsgVersion "ERROR" demo_machine). reflexivity. Defined.

(** While no logger is set, a call of [log] that leaves [notify] out
    does nothing at all, a warning or an error included: it is neither
    logged nor sent. *)
Lemma log_without_logger (msg : message) (level : string) (m : machine) :
  logger (self m) = false ->
  log msg level None m = Ok (tt, m).
Proof.
  intros Hl. rewrite log_run, Hl. cbn. by rewrite add_events_nil.
Qed.

Lemma log_without_logger_witness :
  log MsgVersion "ERROR" None unlogged_machine = Ok (tt, unlogged_machine).
Proof. apply (log_without_logger MsgVersion "ERROR" unlogged_machine). reflexivity. Defined.

(** ** The trade count on a ticker without a price *)

(** X3: when the ticker of some open trade has a last price of zero,
    [get_trade_stoploss_count] raises [ZeroDivisionError], whatever the
    other trades are. *)
Theorem get_trade_stoploss_count_raises (h : host) (m : machine) :
  Exists (fun t => is_zero (ticker_last h (pair t)) = true) (get_trades_proxy_open h) ->
  get_trade_stoploss_count h m = Raise ZeroDivisionError.
Proof. apply count_stoploss_raises. Qed.

Lemma get_trade_stoploss_count_raises_witness :
  get_trade_stoploss_count halted_host demo_machine = Raise ZeroDivisionError.
Proof.
  apply (get_trade_stoploss_count_raises halted_host demo_machine).
  apply Exists_cons_hd. reflexivity.
Defined.

(** X4: with the improved trade count on, a ticker without a price makes
    [update_max_trade_count] raise [ZeroDivisionError]: the error of
    [get_trade_stoploss_count] is not caught, and the call does not
    return. *)
Theorem update_max_trade_count_raises (h : host) (m : machine) :
  enable_improved_trade_count (self m) = true ->
  Exists (fun t => is_zero (ticker_last h (pair t)) = true) (get_trades_proxy_open h) ->
  update_max_trade_count h m = Raise ZeroDivisionError.
Proof.
  intros Hon Hex. by apply update_max_trade_count_unpriced.
Qed.

Lemma update_max_trade_count_raises_witness :
  update_max_trade_count halted_host demo_machine = Raise ZeroDivisionError.
Proof.
  apply (update_max_trade_count_raises halted_host demo_machine).
  - reflexivity.
  - apply Exists_cons_hd. reflexivity.
Defined.

(** ** The limit that [update_max_trade_count] leaves *)

(** The strategy after an enabled call, written out. *)
Lemma update_max_trade_count_self h m :
  enable_improved_trade_count (self m) = true ->
  Forall (priced h) (get_trades_proxy_open h) ->
  let N := config_max_trades (self m) + stoploss_band_count h in
  exists m',
    update_max_trade_count h m = Ok (tt, m')
    /\ heap m' = heap m
    /\ self m' = if ne_int (max_open_trades (self m)) N
                 then set_config (<["max_open_trades" := VInt N]> (config (self m)))
                        (set_max_open_trades (VInt N) (self m))
                 else self m.
Proof.
  intros Hon Hp N. unfold update_max_trade_count.
  rewrite bind_run. unfold get_self at 1. rewrite Hon. cbn [negb].
  rewrite bind_run. unfold get_trade_stoploss_count.
  destruct (count_stoploss_run h _ 0 m Hp) as (evs & -> & _).
  rewrite Z.add_0_l. fold (stoploss_band_count h). fold N.
  destruct (ne_int _ _); run; eexists; (split; [reflexivity|]); done.
Qed.

Lemma stoploss_band_count_bounds h :
  0 <= stoploss_band_count h <= Z.of_nat (length (get_trades_proxy_open h)).
Proof.
  unfold stoploss_band_count.
  pose proof (filter_length_le (stoploss_active h) (get_trades_proxy_open h)). lia.
Qed.

(** X5: [update_max_trade_count] settles at once: a second call on the
    same market writes nothing, the strategy is as the first call left it. *)
Theorem update_max_trade_count_twice (h : host) (m : machine) :
  (enable_improved_trade_count (self m) = true ->
   Forall (priced h) (get_trades_proxy_open h)) ->
  exists m1 m2,
    update_max_trade_count h m = Ok (tt, m1)
    /\ update_max_trade_count h m1 = Ok (tt, m2)
    /\ self m2 = self m1 /\ heap m2 = heap m1.
Proof.
  intros Hp. destruct (enable_improved_trade_count (self m)) eqn:Hon.
  - destruct (update_max_trade_count_self h m Hon (Hp eq_refl)) as (m1 & Hrun1 & _ & Hs1).
    assert (Hon1 : enable_improved_trade_count (self m1) = true).
    { rewrite Hs1. by destruct (ne_int _ _). }
    assert (Hcmt : config_max_trades (self m1) = config_max_trades (self m)).
    { rewrite Hs1. by destruct (ne_int _ _). }
    destruct (update_max_trade_count_self h m1 Hon1 (Hp eq_refl))
      as (m2 & Hrun2 & Hh2 & Hs2).
    exists m1, m2. split; [done|]. split; [done|]. split; [|done].
    rewrite Hs2, Hcmt.
    replace (ne_int (max_open_trades (self m1))
               (config_max_trades (self m) + stoploss_band_count h)) with false; [done|].
    rewrite Hs1. destruct (ne_int _ _) eqn:Hne; [|by rewrite Hne].
    cbn. by rewrite Z.eqb_refl.
  - exists m, m. by rewrite !update_max_trade_count_off.
Qed.

Lemma update_max_trade_count_twice_witness :
  exists m1 m2,
    update_max_trade_count demo_host demo_machine = Ok (tt, m1)
    /\ update_max_trade_count demo_host m1 = Ok (tt, m2)
    /\ self m2 = self m1 /\ heap m2 = heap m1.
Proof.
  apply (update_max_trade_count_twice demo_host demo_machine).
  intros _. repeat constructor.
Defined.

(** X6: after an enabled call the limit [self.max_open_trades] equals a
    number that is at least [config_max_trades] and at most
    [config_max_trades] plus the number of open trades. *)
Theorem update_max_trade_count_bounds (h : host) (m : machine) :
  enable_improved_trade_count (self m) = true ->
  Forall (priced h) (get_trades_proxy_open h) ->
  exists m' N,
    update_max_trade_count h m = Ok (tt, m')
    /\ ne_int (max_open_trades (self m')) N = false
    /\ config_max_trades (self m) <= N
         <= config_max_trades (self m) + Z.of_nat (length (get_trades_proxy_open h)).
Proof.
  intros Hon Hp.
  destruct (update_max_trade_count_self h m Hon Hp) as (m' & Hrun & _ & Hs).
  exists m', (config_max_trades (self m) + stoploss_band_count h).
  split; [done|]. split.
  - rewrite Hs. destruct (ne_int _ _) eqn:Hne; [|done]. cbn. by rewrite Z.eqb_refl.
  - pose proof (stoploss_band_count_bounds h). lia.
Qed.

Lemma update_max_trade_count_bounds_witness :
  exists m' N,
    update_max_trade_count demo_host demo_machine = Ok (tt, m')
    /\ ne_int (max_open_trades (self m')) N = false
    /\ config_max_trades (self demo_machine) <= N
         <= config_max_trades (self demo_machine)
            + Z.of_nat (length (get_trades_proxy_open demo_host)).
Proof.
  apply (update_max_trade_count_bounds demo_host demo_machine).
  - reflexivity.
  - repeat constructor.
Defined.

(** X7: a limit of [float('inf')], the host's "no limit", does not survive
    an enabled call: it differs from every int, so the call replaces it, on
    the strategy and in the configuration, by
    [config_max_trades + get_trade_stoploss_count()]. *)
Theorem update_max_trade_count_unlimited (h : host) (m : machine) :
  enable_improved_trade_count (self m) = true ->
  Forall (priced h) (get_trades_proxy_open h) ->
  max_open_trades (self m) = VFloat infinity ->
  exists m',
    update_max_trade_count h m = Ok (tt, m')
    /\ max_open_trades (self m') = VInt (config_max_trades (self m) + stoploss_band_count h)
    /\ config (self m') !! "max_open_trades"
       = Some (VInt (config_max_trades (self m) + stoploss_band_count h)).
Proof.
  intros Hon Hp Hinf.
  destruct (update_max_trade_count_self h m Hon Hp) as (m' & Hrun & _ & Hs).
  exists m'. split; [done|]. rewrite Hs, Hinf.
  change (ne_int (VFloat infinity) _) with true. cbn. split; [done|].
  apply lookup_insert_eq.
Qed.

Lemma update_max_trade_count_unlimited_witness :
  exists m',
    update_max_trade_count demo_host unlimited_machine = Ok (tt, m')
    /\ max_open_trades (self m')
       = VInt (config_max_trades (self unlimited_machine) + stoploss_band_count demo_host)
    /\ config (self m') !! "max_open_trades"
       = Some (VInt (config_max_trades (self unlimited_machine)
                     + stoploss_band_count demo_host)).
Proof.
  apply (update_max_trade_count_unlimited demo_host unlimited_machine).
  - reflexivity.
  - repeat constructor.
  - reflexivity.
Defined.

(** ** From construction to [bot_start] *)

(** What [__init__] copies into the strategy it builds. *)
Lemma init_fields round cls cfg s :
  __init__ round cls cfg = Ok s ->
  logger s = true
  /\ cache s = None /\ remove_autolock s = None
  /\ min_profit s = cls_min_profit cls
  /\ enable_improved_trade_count s = cls_enable_improved_trade_count cls
  /\ max_open_trades s = cls_max_open_trades cls
  /\ config s = cfg
  /\ config_max_trades s = match cfg !! "max_open_trades" with
                           | Some (VInt n) => n
                           | _ => 0
                           end.
Proof.
  unfold __init__. intros Hinit.
  repeat match type of Hinit with
         | match ?x with _ => _ end = _ => destruct x; try discriminate
         end.
  injection Hinit as <-. cbn. done.
Qed.

(** [bot_start], written out. *)
Lemma bot_start_self h m :
  (enable_improved_trade_count (self m) = true ->
   Forall (priced h) (get_trades_proxy_open h)) ->
  let ready := set_remove_autolock (Some []) (set_cache (Some ∅) (self m)) in
  exists m' evs,
    bot_start h m = Ok (tt, m')
    /\ update_max_trade_count h
         (add_events (SuperBotStart ready
                        :: log_events (logger (self m)) MsgVersion "INFO" None
                        ++ log_events (logger (self m))
                             (MsgLeverageConfiguration (leverage_configuration (self m)))
                             "INFO" None)
            {| self := ready; heap := heap m; trace := trace m |}) = Ok (tt, m')
    /\ cache (self m') = Some ∅
    /\ remove_autolock (self m') = Some []
    /\ heap m' = heap m
    /\ trace m' = trace m ++ SuperBotStart ready :: evs.
Proof.
  intros Hp ready. unfold bot_start.
  rewrite !bind_run. unfold modify_self at 1. rewrite bind_run.
  unfold modify_self at 1. rewrite bind_run. unfold get_self at 1.
  rewrite bind_run. unfold emit at 1. rewrite bind_run, log_run, bind_run, log_run.
  cbn [self heap trace add_events]. fold ready.
  match goal with |- context [update_max_trade_count h ?m1] =>
    destruct (update_max_trade_count_frame h m1)
      as (m' & evs & Hrun & Hra & Hc & Hh & Htr); [exact Hp|];
    assert (Heq : m1 = add_events
              (SuperBotStart ready
                 :: log_events (logger (self m)) MsgVersion "INFO" None
                 ++ log_events (logger (self m))
                      (MsgLeverageConfiguration (leverage_configuration (self m)))
                      "INFO" None)
              {| self := ready; heap := heap m; trace := trace m |})
      by (unfold add_events; cbn; by rewrite <- !app_assoc)
  end.
  exists m'. eexists. rewrite <- Heq. split; [exact Hrun|]. split; [exact Hrun|].
  rewrite Hra, Hc, Hh, Htr. cbn. repeat split.
  rewrite <- !app_assoc. reflexivity.
Qed.

(** X8: built from a configuration whose [max_open_trades] is
    [float('inf')] (no limit), a strategy with the improved trade count on
    has [config_max_trades] at 0, and its first [bot_start] replaces the
    limit by the number of trades running in stoploss: 0 on a market with
    none. *)
Theorem unlimited_becomes_stoploss_count (round : float -> Z -> float)
    (cls : class_attributes) (cfg : gmap string value) (h : host) (s : strategy)
    (objects : gmap ref DataFrame) (calls : list event) :
  __init__ round cls cfg = Ok s ->
  cls_enable_improved_trade_count cls = true ->
  cls_max_open_trades cls = VFloat infinity ->
  cfg !! "max_open_trades" = Some (VFloat infinity) ->
  Forall (priced h) (get_trades_proxy_open h) ->
  config_max_trades s = 0
  /\ exists m',
       bot_start h {| self := s; heap := objects; trace := calls |} = Ok (tt, m')
       /\ max_open_trades (self m') = VInt (stoploss_band_count h)
       /\ config (self m') !! "max_open_trades" = Some (VInt (stoploss_band_count h)).
Proof.
  intros Hinit Hon Hmax Hcfg Hp.
  destruct (init_fields _ _ _ _ Hinit) as (_ & _ & _ & _ & Hen & Hm & _ & Hcmt).
  rewrite Hcfg in Hcmt. rewrite Hon in Hen. rewrite Hmax in Hm.
  split; [exact Hcmt|].
  destruct (bot_start_self h {| self := s; heap := objects; trace := calls |})
    as (m' & evs & Hrun & Hupd & _); [done|].
  exists m'. split; [exact Hrun|].
  match type of Hupd with update_max_trade_count h ?m1 = _ =>
    destruct (update_max_trade_count_self h m1) as (m'' & Hrun' & _ & Hs); [done|done|]
  end.
  rewrite Hrun' in Hupd. injection Hupd as <-.
  rewrite Hs. cbn [self add_events set_remove_autolock set_cache max_open_trades
                   config_max_trades].
  rewrite Hm, Hcmt, Z.add_0_l.
  change (ne_int (VFloat infinity) _) with true. cbn. split; [done|].
  apply lookup_insert_eq.
Qed.

Lemma unlimited_becomes_stoploss_count_witness :
  exists s,
    __init__ round_of_exact unlimited_class {["max_open_trades"%string := VFloat infinity]}
      = Ok s
    /\ config_max_trades s = 0
    /\ exists m',
         bot_start quiet_host {| self := s; heap := ∅; trace := [] |} = Ok (tt, m')
         /\ max_open_trades (self m') = VInt (stoploss_band_count quiet_host)
         /\ config (self m') !! "max_open_trades"
            = Some (VInt (stoploss_band_count quiet_host)).
Proof.
  eexists. split; [reflexivity|].
  apply (unlimited_becomes_stoploss_count round_of_exact unlimited_class
           {["max_open_trades"%string := VFloat infinity]} quiet_host _ ∅ []).
  - reflexivity.
  - reflexivity.
  - reflexivity.
  - reflexivity.
  - constructor.
Defined.

(** X9: [bot_start] starts afresh.  Whatever the cache and the list of
    scheduled pairs held, [super().bot_start()] is called on a strategy
    whose cache and list are already empty, they are still empty when
    [bot_start] returns, and every lookup in the cache then finds nothing. *)
Theorem bot_start_resets (h : host) (m : machine) :
  (enable_improved_trade_count (self m) = true ->
   Forall (priced h) (get_trades_proxy_open h)) ->
  exists m' this evs,
    bot_start h m = Ok (tt, m')
    /\ trace m' = trace m ++ SuperBotStart this :: evs
    /\ cache this = Some ∅ /\ remove_autolock this = Some []
    /\ cache (self m') = Some ∅ /\ remove_autolock (self m') = Some []
    /\ heap m' = heap m
    /\ forall pair tf, get_dataframe_from_cache pair tf m' = Ok (None, m').
Proof.
  intros Hp.
  destruct (bot_start_self h m Hp) as (m' & evs & Hrun & _ & Hc & Hra & Hh & Htr).
  eexists m', _, evs. split; [exact Hrun|]. split; [exact Htr|].
  repeat split; try done.
  intros pair tf. rewrite (get_dataframe_from_cache_run pair tf m' ∅ Hc).
  by rewrite lookup_empty.
Qed.

Lemma bot_start_resets_witness :
  exists m' this evs,
    bot_start demo_host cached_machine = Ok (tt, m')
    /\ trace m' = trace cached_machine ++ SuperBotStart this :: evs
    /\ cache this = Some ∅ /\ remove_autolock this = Some []
    /\ cache (self m') = Some ∅ /\ remove_autolock (self m') = Some []
    /\ heap m' = heap cached_machine
    /\ forall pair tf, get_dataframe_from_cache pair tf m' = Ok (None, m').
Proof.
  apply (bot_start_resets demo_host cached_machine).
  intros _. repeat constructor.
Defined.

(** ** Before [bot_start] *)

(** X10: while [custom_info] has no ['cache'] key (before [bot_start]),
    storing into the cache, reading from it and cleaning it up all raise
    [KeyError('cache')]. *)
Theorem cache_methods_before_bot_start (h : host) (now : Z) (df : ref)
    (pair tf : string) (m : machine) :
  cache (self m) = None ->
  cache_dataframe now df pair tf m = Raise (KeyError "cache")
  /\ get_dataframe_from_cache pair tf m = Raise (KeyError "cache")
  /\ cleanup_cache h now m = Raise (KeyError "cache").
Proof.
  intros Hc. unfold cache_dataframe, get_dataframe_from_cache, cleanup_cache.
  rewrite !bind_run, (get_cache_absent m Hc). done.
Qed.

Lemma cache_methods_before_bot_start_witness :
  cache_dataframe 0 1%positive "BTC/USDT" "1h" unlogged_machine = Raise (KeyError "cache")
  /\ get_dataframe_from_cache "BTC/USDT" "1h" unlogged_machine = Raise (KeyError "cache")
  /\ cleanup_cache demo_host 0 unlogged_machine = Raise (KeyError "cache").
Proof.
  apply (cache_methods_before_bot_start demo_host 0 1%positive "BTC/USDT" "1h"
           unlogged_machine).
  reflexivity.
Defined.

Lemma get_remove_autolock_absent m :
  remove_autolock (self m) = None ->
  get_remove_autolock m = Raise (KeyError "remove-autolock").
Proof.
  intros Hp. unfold get_remove_autolock. rewrite bind_run. unfold get_self.
  by rewrite Hp.
Qed.

(** X11: while [custom_info] has no ['remove-autolock'] key,
    [schedule_remove_autolock] raises [KeyError('remove-autolock')], and so
    does [bot_loop_start] outside the periodic tasks. *)
Theorem autolock_methods_before_bot_start (h : host) (now : Z)
    (current_time : datetime) (pair : string) (m : machine) :
  remove_autolock (self m) = None ->
  schedule_remove_autolock pair m = Raise (KeyError "remove-autolock")
  /\ (periodic current_time = false ->
      bot_loop_start h now current_time m = Raise (KeyError "remove-autolock")).
Proof.
  intros Hp. split.
  - unfold schedule_remove_autolock.
    by rewrite bind_run, (get_remove_autolock_absent m Hp).
  - intros Hdue. unfold bot_loop_start. fold (periodic current_time). rewrite Hdue.
    by rewrite bind_run, ret_run, bind_run, (get_remove_autolock_absent m Hp).
Qed.

Lemma autolock_methods_before_bot_start_witness :
  schedule_remove_autolock "BTC/USDT" unlogged_machine
    = Raise (KeyError "remove-autolock")
  /\ (periodic {| minute := 3; second := 0 |} = false ->
      bot_loop_start demo_host 0 {| minute := 3; second := 0 |} unlogged_machine
        = Raise (KeyError "remove-autolock")).
Proof.
  apply (autolock_methods_before_bot_start demo_host 0 {| minute := 3; second := 0 |}
           "BTC/USDT" unlogged_machine).
  reflexivity.
Defined.

(** ** Scheduled unlocks *)

Lemma check_unlocked_events h pending : forall m,
  for_each pending (check_unlocked h) m
  = Ok (tt, add_events (check_events (logger (self m)) h pending) m).
Proof.
  induction pending as [|pair pending IH]; intros m.
  - cbn. by rewrite ret_run, add_events_nil.
  - cbn [for_each check_events flat_map]. rewrite bind_run.
    unfold check_unlocked at 1. cbv zeta.
    destruct (String.eqb (is_locked_until h pair) "").
    + rewrite ret_run. apply IH.
    + rewrite log_run, IH, add_events_app. reflexivity.
Qed.

Lemma notifications_check_events h pending :
  notifications (check_events true h pending) = still_locked h pending.
Proof.
  induction pending as [|pair pending IH]; [done|].
  cbn [check_events flat_map still_locked omap list_omap]. cbv zeta.
  fold (check_events true h pending). fold (still_locked h pending).
  destruct (String.eqb (is_locked_until h pair) ""); [exact IH|].
  rewrite notifications_app, IH. reflexivity.
Qed.

(** [bot_loop_start] between the periodic tasks, written out. *)
Lemma bot_loop_start_between h now current_time m pending :
  periodic current_time = false ->
  remove_autolock (self m) = Some pending ->
  bot_loop_start h now current_time m
  = Ok (tt,
        match pending with
        | [] => add_events [SuperBotLoopStart (self m) current_time] m
        | _ :: _ =>
            {| self := set_remove_autolock (Some []) (self m);
               heap := heap m;
               trace := trace m
                        ++ UnlockReason (self m) "Auto lock"
                        :: check_events (logger (self m)) h pending
                        ++ [SuperBotLoopStart (set_remove_autolock (Some []) (self m))
                              current_time] |}
        end).
Proof.
  intros Hdue Hp. unfold bot_loop_start. fold (periodic current_time). rewrite Hdue.
  rewrite bind_run, ret_run, bind_run, (get_remove_autolock_run m pending Hp).
  destruct pending as [|pair pending].
  - cbn [length Z.of_nat Z.ltb Z.compare]. run. reflexivity.
  - replace (0 <? Z.of_nat (length (pair :: pending))) with true
      by (symmetry; apply Z.ltb_lt; cbn [length]; lia).
    rewrite !bind_run. unfold get_self at 1, emit at 1.
    rewrite bind_run, bind_run, check_unlocked_events.
    rewrite bind_run, (get_remove_autolock_run _ (pair :: pending)) by exact Hp.
    run. unfold emit, add_events. cbn [self heap trace].
    rewrite <- !app_assoc. reflexivity.
Qed.

(** X12: a removal scheduled with [schedule_remove_autolock] is carried out
    by the next [bot_loop_start]: [unlock_reason('Auto lock')] is called
    while the list holds the pair, and the list is empty afterwards. *)
Theorem scheduled_then_unlocked (h : host) (now : Z) (current_time : datetime)
    (pair : string) (m : machine) (pending : list string) :
  periodic current_time = false ->
  remove_autolock (self m) = Some pending ->
  exists m1 m2 this before after,
    schedule_remove_autolock pair m = Ok (tt, m1)
    /\ bot_loop_start h now current_time m1 = Ok (tt, m2)
    /\ trace m2 = trace m ++ before ++ UnlockReason this "Auto lock" :: after
    /\ remove_autolock this = Some (pending ++ [pair])
    /\ remove_autolock (self m2) = Some [].
Proof.
  intros Hdue Hp. unfold schedule_remove_autolock.
  rewrite bind_run, (get_remove_autolock_run m pending Hp). run.
  destruct (pending ++ [pair]) as [|p ps] eqn:Hps; [by destruct pending|].
  eexists _, _, _,
    (log_events (logger (self m)) (MsgScheduledRemoval pair) "INFO" None), _.
  split; [reflexivity|].
  rewrite (bot_loop_start_between h now current_time _ (p :: ps) Hdue) by reflexivity.
  split; [reflexivity|]. cbn [trace self add_events].
  split; [symmetry; apply app_assoc|]. split; reflexivity.
Qed.

Lemma scheduled_then_unlocked_witness :
  exists m1 m2 this before after,
    schedule_remove_autolock "BTC/USDT" idle_machine = Ok (tt, m1)
    /\ bot_loop_start demo_host 0 {| minute := 3; second := 0 |} m1 = Ok (tt, m2)
    /\ trace m2 = trace idle_machine ++ before ++ UnlockReason this "Auto lock" :: after
    /\ remove_autolock this = Some ([] ++ ["BTC/USDT"%string])
    /\ remove_autolock (self m2) = Some [].
Proof.
  apply (scheduled_then_unlocked demo_host 0 {| minute := 3; second := 0 |} "BTC/USDT"
           idle_machine []).
  - reflexivity.
  - reflexivity.
Defined.

(** X13: [schedule_remove_autolock] appends: pairs scheduled one after the
    other are kept in that order behind those already scheduled, a pair
    scheduled twice is held twice, and nothing else of the strategy
    changes. *)
Theorem schedule_remove_autolock_appends (pairs : list string) (m : machine)
    (pending : list string) :
  remove_autolock (self m) = Some pending ->
  exists m',
    for_each pairs schedule_remove_autolock m = Ok (tt, m')
    /\ self m' = set_remove_autolock (Some (pending ++ pairs)) (self m)
    /\ heap m' = heap m
    /\ sent m' = sent m.
Proof.
  revert m pending. induction pairs as [|pair pairs IH]; intros m pending Hp.
  - exists m. rewrite app_nil_r. cbn. rewrite ret_run. repeat split.
    destruct m as [[] ? ?]; cbn in *. by subst.
  - cbn [for_each]. rewrite bind_run. unfold schedule_remove_autolock at 1.
    rewrite bind_run, (get_remove_autolock_run m pending Hp). run.
    match goal with |- context [for_each pairs schedule_remove_autolock ?m1] =>
      destruct (IH m1 (pending ++ [pair])) as (m' & Hrun & Hs & Hh & Hsent);
        [reflexivity|] end.
    exists m'. split; [exact Hrun|]. rewrite Hs, Hh, Hsent.
    cbn [self heap set_remove_autolock add_events remove_autolock].
    rewrite <- app_assoc. split; [reflexivity|]. split; [reflexivity|].
    rewrite sent_add_events.
    rewrite (log_quiet (logger (self m)) (MsgScheduledRemoval pair) "INFO") by auto.
    by rewrite app_nil_r.
Qed.

Lemma schedule_remove_autolock_appends_witness :
  exists m',
    for_each ["ETH/USDT"; "BTC/USDT"; "ETH/USDT"]%string schedule_remove_autolock
      scheduled_machine = Ok (tt, m')
    /\ self m' = set_remove_autolock
                   (Some (["BTC/USDT"; "ETH/USDT"]%string
                          ++ ["ETH/USDT"; "BTC/USDT"; "ETH/USDT"]%string))
                   (self scheduled_machine)
    /\ heap m' = heap scheduled_machine
    /\ sent m' = sent scheduled_machine.
Proof.
  apply (schedule_remove_autolock_appends ["ETH/USDT"; "BTC/USDT"; "ETH/USDT"]%string
           scheduled_machine ["BTC/USDT"; "ETH/USDT"]%string).
  reflexivity.
Defined.

(** X14: with nothing scheduled, and between the periodic tasks,
    [bot_loop_start] only calls [super().bot_loop_start(current_time)]: it
    does not call [unlock_reason], logs nothing and leaves the strategy as
    it is. *)
Theorem bot_loop_start_idle (h : host) (now : Z) (current_time : datetime)
    (m : machine) :
  periodic current_time = false ->
  remove_autolock (self m) = Some [] ->
  bot_loop_start h now current_time m
  = Ok (tt, add_events [SuperBotLoopStart (self m) current_time] m).
Proof.
  intros Hdue Hp. by rewrite (bot_loop_start_between h now current_time m [] Hdue Hp).
Qed.

Lemma bot_loop_start_idle_witness :
  bot_loop_start demo_host 0 {| minute := 3; second := 0 |} idle_machine
  = Ok (tt, add_events [SuperBotLoopStart (self idle_machine)
                          {| minute := 3; second := 0 |}] idle_machine).
Proof.
  apply (bot_loop_start_idle demo_host 0 {| minute := 3; second := 0 |} idle_machine).
  - reflexivity.
  - reflexivity.
Defined.

Lemma still_locked_unfold h pending :
  omap (fun pair =>
          match get_pair_longest_lock h pair with
          | Some lock_end_time =>
              if String.eqb lock_end_time "" then None
              else Some (MsgLockStillActive pair lock_end_time)
          | None => None
          end) pending = still_locked h pending.
Proof.
  unfold still_locked. induction pending as [|pair pending IH]; [done|].
  csimpl. rewrite IH. unfold is_locked_until.
  by destruct (get_pair_longest_lock h pair).
Qed.

(** X15: after [unlock_reason], [bot_loop_start] reports every scheduled
    pair that [PairLocks] still holds a lock for: with the logger set it
    sends one notification for each of them, in the order they were
    scheduled, and none for the pairs that are free. *)
Theorem bot_loop_start_reports_locks (h : host) (now : Z) (current_time : datetime)
    (m : machine) (pending : list string) :
  periodic current_time = false ->
  logger (self m) = true ->
  remove_autolock (self m) = Some pending ->
  exists m',
    bot_loop_start h now current_time m = Ok (tt, m')
    /\ sent m' = sent m
                 ++ omap (fun pair =>
                            match get_pair_longest_lock h pair with
                            | Some lock_end_time =>
                                if String.eqb lock_end_time "" then None
                                else Some (MsgLockStillActive pair lock_end_time)
                            | None => None
                            end) pending.
Proof.
  intros Hdue Hl Hp. eexists. split; [by apply bot_loop_start_between|].
  rewrite still_locked_unfold. destruct pending as [|pair pending].
  - rewrite sent_add_events. cbn. by rewrite app_nil_r.
  - unfold sent. cbn [trace].
    change (omap ?f ?l) with (notifications l).
    change (UnlockReason (self m) "Auto lock" :: ?evs)
      with ([UnlockReason (self m) "Auto lock"] ++ evs).
    rewrite !notifications_app, Hl, notifications_check_events. cbn.
    by rewrite app_nil_r.
Qed.

Lemma bot_loop_start_reports_locks_witness :
  exists m',
    bot_loop_start locking_host 0 {| minute := 3; second := 0 |} scheduled_machine
      = Ok (tt, m')
    /\ sent m' = sent scheduled_machine
                 ++ omap (fun pair =>
                            match get_pair_longest_lock locking_host pair with
                            | Some lock_end_time =>
                                if String.eqb lock_end_time "" then None
                                else Some (MsgLockStillActive pair lock_end_time)
                            | None => None
                            end) ["BTC/USDT"; "ETH/USDT"]%string.
Proof.
  apply (bot_loop_start_reports_locks locking_host 0 {| minute := 3; second := 0 |}
           scheduled_machine ["BTC/USDT"; "ETH/USDT"]%string).
  - reflexivity.
  - reflexivity.
  - reflexivity.
Defined.

(** ** More on the cache of dataframes *)

(** X16: storing again under the same pair and timeframe replaces the
    dataframe and the timestamp of the entry: the cache then returns a copy
    of the dataframe stored last, dated at the last store. *)
Theorem cache_dataframe_overwrites (now1 now2 : Z) (df1 df2 : ref) (pair tf : string)
    (m : machine) (c : gmap string cache_entry) (d1 d2 : DataFrame) :
  cache (self m) = Some c ->
  heap m !! df1 = Some d1 ->
  heap m !! df2 = Some d2 ->
  exists m1 m2 r c2 e,
    cache_dataframe now1 df1 pair tf m = Ok (tt, m1)
    /\ cache_dataframe now2 df2 pair tf m1 = Ok (tt, m2)
    /\ get_dataframe_from_cache pair tf m2 = Ok (Some r, m2)
    /\ heap m2 !! r = Some d2
    /\ cache (self m2) = Some c2
    /\ c2 !! cache_key pair tf = Some e
    /\ ce_df e = r /\ ce_datetime e = now2.
Proof.
  intros Hc Hd1 Hd2.
  destruct (cache_dataframe_run now1 df1 pair tf m c d1 Hc Hd1)
    as (evs1 & r1 & tf1 & Hrun1 & Hfresh1 & _ & _).
  match type of Hrun1 with _ = Ok (tt, ?m1) =>
    destruct (cache_dataframe_run now2 df2 pair tf m1 _ d2 eq_refl)
      as (evs2 & r2 & tf2 & Hrun2 & Hfresh2 & _ & _)
  end.
  { cbn. rewrite lookup_insert_ne; [done|]. intros ->. congruence. }
  eexists _, _, r2, _, _. split; [exact Hrun1|]. split; [exact Hrun2|].
  split.
  { erewrite get_dataframe_from_cache_run by reflexivity. by rewrite lookup_insert_eq. }
  split; [cbn; apply lookup_insert_eq|]. split; [reflexivity|].
  split; [apply lookup_insert_eq|]. done.
Qed.

Lemma cache_dataframe_overwrites_witness :
  exists m1 m2 r c2 e,
    cache_dataframe 0 1%positive "BTC/USDT" "1h" cached_machine = Ok (tt, m1)
    /\ cache_dataframe ten_minutes 2%positive "BTC/USDT" "1h" m1 = Ok (tt, m2)
    /\ get_dataframe_from_cache "BTC/USDT" "1h" m2 = Ok (Some r, m2)
    /\ heap m2 !! r = Some candles
    /\ cache (self m2) = Some c2
    /\ c2 !! cache_key "BTC/USDT" "1h" = Some e
    /\ ce_df e = r /\ ce_datetime e = ten_minutes.
Proof.
  apply (cache_dataframe_overwrites 0 ten_minutes 1%positive 2%positive "BTC/USDT" "1h"
           cached_machine two_entries candles candles).
  - reflexivity.
  - reflexivity.
  - reflexivity.
Defined.

(** X17: storing under one key leaves the other entries alone: a lookup
    under another key returns the same object as before the store, with the
    contents it had. *)
Theorem cache_dataframe_other_keys (now : Z) (df : ref) (pair tf pair' tf' : string)
    (m : machine) (c : gmap string cache_entry) (d : DataFrame) :
  cache (self m) = Some c ->
  heap m !! df = Some d ->
  cache_key pair' tf' <> cache_key pair tf ->
  exists m1 found,
    cache_dataframe now df pair tf m = Ok (tt, m1)
    /\ get_dataframe_from_cache pair' tf' m = Ok (found, m)
    /\ get_dataframe_from_cache pair' tf' m1 = Ok (found, m1)
    /\ forall r d', found = Some r -> heap m !! r = Some d' -> heap m1 !! r = Some d'.
Proof.
  intros Hc Hd Hne.
  destruct (cache_dataframe_run now df pair tf m c d Hc Hd)
    as (evs & r1 & tf1 & Hrun & Hfresh & _ & _).
  rewrite Hrun. eexists _, _. split; [reflexivity|].
  split; [by apply get_dataframe_from_cache_run|]. split.
  - erewrite get_dataframe_from_cache_run by reflexivity.
    by rewrite lookup_insert_ne.
  - intros r d' _ Hr. cbn. rewrite lookup_insert_ne; [done|]. intros ->. congruence.
Qed.

Lemma cache_dataframe_other_keys_witness :
  exists m1 found,
    cache_dataframe 0 1%positive "BTC/USDT" "1h" cached_machine = Ok (tt, m1)
    /\ get_dataframe_from_cache "ETH/USDT" "5m" cached_machine = Ok (found, cached_machine)
    /\ get_dataframe_from_cache "ETH/USDT" "5m" m1 = Ok (found, m1)
    /\ forall r d', found = Some r -> heap cached_machine !! r = Some d' ->
                    heap m1 !! r = Some d'.
Proof.
  apply (cache_dataframe_other_keys 0 1%positive "BTC/USDT" "1h" "ETH/USDT" "5m"
           cached_machine two_entries candles).
  - reflexivity.
  - reflexivity.
  - discriminate.
Defined.

Lemma append_nil_l (s : string) : "" +:+ s = s.
Proof. reflexivity. Qed.

Lemma append_cons (a : Ascii.ascii) (s t : string) :
  String a s +:+ t = String a (s +:+ t).
Proof. reflexivity. Qed.

Lemma append_assoc (s t u : string) : (s +:+ t) +:+ u = s +:+ t +:+ u.
Proof.
  induction s as [|a s IH]; [reflexivity|].
  rewrite !(append_cons a). by rewrite IH.
Qed.

Lemma contains_app_separator (c : Ascii.ascii) (s t : string) :
  contains c (s +:+ String c t) = true.
Proof.
  induction s as [|a s IH]; rewrite ?append_nil_l, ?append_cons; cbn [contains].
  - by rewrite Ascii.eqb_refl.
  - rewrite IH. apply orb_true_r.
Qed.

(** X18: the key [f"{pair}_{tf}"] tells the entries apart as long as
    timeframes hold no underscore: two keys are then equal only for the same
    pair and the same timeframe.  Without that the key is ambiguous: a pair
    [p_s] with timeframe [t] has the key of the pair [p] with timeframe
    [s_t]. *)
Theorem cache_key_injective (pair tf pair' tf' : string) :
  contains underscore tf = false ->
  contains underscore tf' = false ->
  (cache_key pair tf = cache_key pair' tf' -> pair = pair' /\ tf = tf')
  /\ forall p s t, cache_key (p +:+ "_" +:+ s) t = cache_key p (s +:+ "_" +:+ t).
Proof.
  intros Htf Htf'.
  assert (Hsep : forall t, "_" +:+ t = String underscore t) by reflexivity.
  split.
  - unfold cache_key. rewrite !Hsep. revert pair'.
    induction pair as [|a pair IH]; intros [|a' pair'];
      rewrite ?append_nil_l, ?append_cons; intros Heq.
    + by injection Heq as ->.
    + injection Heq as _ ->. by rewrite contains_app_separator in Htf.
    + injection Heq as _ <-. by rewrite contains_app_separator in Htf'.
    + injection Heq as -> Heq. by destruct (IH pair' Heq) as [-> ->].
  - intros p s t. unfold cache_key. by rewrite !append_assoc.
Qed.

Lemma cache_key_injective_witness :
  (cache_key "BTC/USDT" "1h" = cache_key "BTC/USDT" "1h" ->
   "BTC/USDT"%string = "BTC/USDT"%string /\ "1h"%string = "1h"%string)
  /\ forall p s t, cache_key (p +:+ "_" +:+ s) t = cache_key p (s +:+ "_" +:+ t).
Proof.
  apply (cache_key_injective "BTC/USDT" "1h" "BTC/USDT" "1h").
  - reflexivity.
  - reflexivity.
Defined.

Lemma kept_twice h now e : kept h now (kept h now e) = kept h now e.
Proof.
  destruct e as [e|]; [|done]. cbn.
  destruct (outdated h now e) eqn:Ho; cbn; by rewrite ?Ho.
Qed.

(** X19: [cleanup_cache] is complete in one pass: a second call at the
    same time finds nothing left to remove and leaves the strategy as the
    first call left it. *)
Theorem cleanup_cache_twice (h : host) (now : Z) (m : machine)
    (c : gmap string cache_entry) :
  cache (self m) = Some c ->
  exists m1 m2,
    cleanup_cache h now m = Ok (tt, m1)
    /\ cleanup_cache h now m1 = Ok (tt, m2)
    /\ self m2 = self m1 /\ heap m2 = heap m1.
Proof.
  intros Hc.
  destruct (cleanup_cache_run h now m c Hc) as (c1 & evs1 & Hrun1 & _ & Hc1).
  match type of Hrun1 with _ = Ok (tt, ?m1) =>
    destruct (cleanup_cache_run h now m1 c1 eq_refl) as (c2 & evs2 & Hrun2 & _ & Hc2)
  end.
  eexists _, _. split; [exact Hrun1|]. split; [exact Hrun2|].
  split; [|reflexivity]. cbn.
  replace c2 with c1; [reflexivity|].
  apply map_eq. intros key. by rewrite Hc2, Hc1, kept_twice.
Qed.

Lemma cleanup_cache_twice_witness :
  exists m1 m2,
    cleanup_cache demo_host ten_minutes cached_machine = Ok (tt, m1)
    /\ cleanup_cache demo_host ten_minutes m1 = Ok (tt, m2)
    /\ self m2 = self m1 /\ heap m2 = heap m1.
Proof.
  apply (cleanup_cache_twice demo_host ten_minutes cached_machine two_entries).
  reflexivity.
Defined.

(** An entry is not outdated at the very time it was stored. *)
Lemma outdated_at_store h now e :
  ce_datetime e = now ->
  -2 <= timeframe_to_minutes h (ce_tf e) ->
  outdated h now e = false.
Proof.
  intros Hnow Htf. unfold outdated, minutes_since. rewrite Hnow, Z.sub_diag.
  change (PrimFloat.sub (PrimFloat.div (total_seconds 0) 60) 2) with (-2)%float.
  unfold gt_int, cmp_float_int.
  change (Prim2SF (-2)) with (S754_finite true 4503599627370496 (-51)).
  cbv beta iota zeta. change (0 <=? -51) with false. cbv beta iota.
  destruct (Z.neg 4503599627370496 ?= timeframe_to_minutes h (ce_tf e) * 2 ^ (- (-51)))
    eqn:Hcmp; try reflexivity.
  exfalso. apply Z.compare_gt_iff in Hcmp.
  change (2 ^ (- (-51))) with 2251799813685248 in Hcmp. lia.
Qed.

(** X20: a dataframe just stored survives a [cleanup_cache] that runs at
    the same clock reading, for every timeframe that lasts no less than zero
    minutes: the cache still returns it. *)
Theorem stored_survives_cleanup (h : host) (now : Z) (df : ref) (pair tf : string)
    (m : machine) (c : gmap string cache_entry) (d : DataFrame) :
  cache (self m) = Some c ->
  heap m !! df = Some d ->
  0 <= timeframe_to_minutes h
         (match c !! cache_key pair tf with Some e => ce_tf e | None => tf end) ->
  exists m1 m2 r,
    cache_dataframe now df pair tf m = Ok (tt, m1)
    /\ cleanup_cache h now m1 = Ok (tt, m2)
    /\ get_dataframe_from_cache pair tf m2 = Ok (Some r, m2)
    /\ heap m2 !! r = Some d.
Proof.
  intros Hc Hd Htf.
  destruct (cache_dataframe_run now df pair tf m c d Hc Hd)
    as (evs & r & tf1 & Hrun & _ & _ & ->).
  match type of Hrun with _ = Ok (tt, ?m1) =>
    destruct (cleanup_cache_run h now m1 _ eq_refl) as (c2 & evs2 & Hrun2 & _ & Hc2)
  end.
  eexists _, _, r. split; [exact Hrun|]. split; [exact Hrun2|]. split.
  - erewrite get_dataframe_from_cache_run by reflexivity.
    rewrite Hc2, lookup_insert_eq. cbn [kept].
    rewrite outdated_at_store; [reflexivity|reflexivity|]. cbn [ce_tf]. lia.
  - cbn. apply lookup_insert_eq.
Qed.

Lemma stored_survives_cleanup_witness :
  exists m1 m2 r,
    cache_dataframe ten_minutes 1%positive "ETH/USDT" "5m" cached_machine = Ok (tt, m1)
    /\ cleanup_cache demo_host ten_minutes m1 = Ok (tt, m2)
    /\ get_dataframe_from_cache "ETH/USDT" "5m" m2 = Ok (Some r, m2)
    /\ heap m2 !! r = Some candles.
Proof.
  apply (stored_survives_cleanup demo_host ten_minutes 1%positive "ETH/USDT" "5m"
           cached_machine two_entries candles).
  - reflexivity.
  - reflexivity.
  - discriminate.
Defined.

(** X21: the cache copies when it stores, not when it returns:
    [get_dataframe_from_cache] hands out the object the cache holds, so a
    change made in place to the dataframe it returned is what the next
    lookup returns. *)
Theorem get_dataframe_from_cache_shares (now : Z) (df : ref) (pair tf : string)
    (m : machine) (c : gmap string cache_entry) (d : DataFrame) :
  cache (self m) = Some c ->
  heap m !! df = Some d ->
  exists m1 r,
    cache_dataframe now df pair tf m = Ok (tt, m1)
    /\ get_dataframe_from_cache pair tf m1 = Ok (Some r, m1)
    /\ forall d', get_dataframe_from_cache pair tf (mutate r d' m1)
                  = Ok (Some r, mutate r d' m1)
                  /\ heap (mutate r d' m1) !! r = Some d'.
Proof.
  intros Hc Hd.
  destruct (cache_dataframe_run now df pair tf m c d Hc Hd)
    as (evs & r & tf1 & Hrun & _ & _ & _).
  rewrite Hrun. eexists _, r. split; [reflexivity|]. split.
  - erewrite get_dataframe_from_cache_run by reflexivity. by rewrite lookup_insert_eq.
  - intros d'. split.
    + erewrite get_dataframe_from_cache_run by reflexivity. by rewrite lookup_insert_eq.
    + cbn. apply lookup_insert_eq.
Qed.

Lemma get_dataframe_from_cache_shares_witness :
  exists m1 r,
    cache_dataframe 0 1%positive "BTC/USDT" "1h" cached_machine = Ok (tt, m1)
    /\ get_dataframe_from_cache "BTC/USDT" "1h" m1 = Ok (Some r, m1)
    /\ forall d', get_dataframe_from_cache "BTC/USDT" "1h" (mutate r d' m1)
                  = Ok (Some r, mutate r d' m1)
                  /\ heap (mutate r d' m1) !! r = Some d'.
Proof.
  apply (get_dataframe_from_cache_shares 0 1%positive "BTC/USDT" "1h" cached_machine
           two_entries candles).
  - reflexivity.
  - reflexivity.
Defined.

(** ** More on confirming an exit *)

(** X22: [confirm_trade_exit] always returns, and never confirms an exit
    that the superclass rejects; it changes nothing of the strategy. *)
Theorem confirm_trade_exit_never_overrules (h : host) (m : machine) (pair : string)
    (trade : Trade) (order_type : string) (amount rate : float)
    (time_in_force exit_reason : string) (current_time : datetime) :
  exists b m',
    confirm_trade_exit h pair trade order_type amount rate time_in_force
      exit_reason current_time m = Ok (b, m')
    /\ (b = true ->
        super_confirm_trade_exit h pair trade order_type amount rate time_in_force
          exit_reason current_time = true)
    /\ self m' = self m /\ heap m' = heap m.
Proof.
  unfold confirm_trade_exit. case_bool_decide.
  - rewrite bind_run. unfold get_self at 1.
    destruct (le _ _); run; eexists _, _; (split; [reflexivity|]); done.
  - rewrite ret_run. eexists _, _. split; [reflexivity|]. done.
Qed.

(** X23: outside its rejections the callback is transparent.  For an exit
    reason that is not one of the five checked, a custom one included, and
    for a checked reason whose profit is not [<= min_profit], it returns what
    the superclass returns and touches nothing. *)
Theorem confirm_trade_exit_transparent (h : host) (m : machine) (pair : string)
    (trade : Trade) (order_type : string) (amount rate : float)
    (time_in_force exit_reason : string) (current_time : datetime) :
  exit_reason ∉ profit_checked
  \/ le (calc_profit_ratio h trade rate) (min_profit (self m)) = false ->
  confirm_trade_exit h pair trade order_type amount rate time_in_force
    exit_reason current_time m
  = Ok (super_confirm_trade_exit h pair trade order_type amount rate time_in_force
          exit_reason current_time, m).
Proof.
  intros Hcase. unfold confirm_trade_exit. case_bool_decide as Hin.
  - destruct Hcase as [Hout | Hle]; [done|].
    rewrite bind_run. unfold get_self at 1. by rewrite Hle.
  - reflexivity.
Qed.

Lemma confirm_trade_exit_transparent_witness :
  confirm_trade_exit demo_host "BTC/USDT" btc "limit" 1 100 "GTC" "liquidation"
    {| minute := 0; second := 0 |} demo_machine
  = Ok (super_confirm_trade_exit demo_host "BTC/USDT" btc "limit" 1 100 "GTC"
          "liquidation" {| minute := 0; second := 0 |}, demo_machine).
Proof.
  apply (confirm_trade_exit_transparent demo_host demo_machine "BTC/USDT" btc "limit"
           1 100 "GTC" "liquidation" {| minute := 0; second := 0 |}).
  left. rewrite elem_of_profit_checked. intros [H|[H|[H|[H|H]]]]; discriminate H.
Defined.

(** X24: every rejection is reported: with the logger set, rejecting an
    exit sends exactly one notification, which names the pair, the exit
    reason, the rate and the profit. *)
Theorem confirm_trade_exit_reports (h : host) (m : machine) (pair : string)
    (trade : Trade) (order_type : string) (amount rate : float)
    (time_in_force exit_reason : string) (current_time : datetime) :
  logger (self m) = true ->
  exit_reason ∈ profit_checked ->
  le (calc_profit_ratio h trade rate) (min_profit (self m)) = true ->
  exists m',
    confirm_trade_exit h pair trade order_type amount rate time_in_force
      exit_reason current_time m = Ok (false, m')
    /\ sent m' = sent m
                 ++ [MsgRejectExit pair exit_reason rate (calc_profit_ratio h trade rate)].
Proof.
  intros Hl Hin Hle. unfold confirm_trade_exit.
  rewrite bool_decide_eq_true_2 by done.
  rewrite bind_run. unfold get_self at 1. rewrite Hle.
  run. eexists. split; [reflexivity|].
  rewrite sent_add_events, Hl. reflexivity.
Qed.

Lemma confirm_trade_exit_reports_witness :
  exists m',
    confirm_trade_exit demo_host "BTC/USDT" btc "limit" 1 100 "GTC" "roi"
      {| minute := 0; second := 0 |} demo_machine = Ok (false, m')
    /\ sent m' = sent demo_machine
                 ++ [MsgRejectExit "BTC/USDT" "roi" 100
                       (calc_profit_ratio demo_host btc 100)].
Proof.
  apply (confirm_trade_exit_reports demo_host demo_machine "BTC/USDT" btc "limit"
           1 100 "GTC" "roi" {| minute := 0; second := 0 |}).
  - reflexivity.
  - apply elem_of_profit_checked. by left.
  - reflexivity.
Defined.

Lemma le_nan (x y : float) : PrimFloat.is_nan x = true -> le x y = false.
Proof.
  intros Hx. unfold le. rewrite leb_spec. unfold Prim2SF at 1. rewrite Hx. reflexivity.
Qed.

(** X25: a profit that is not a number is never rejected: [NaN <=
    min_profit] is false, so the exit gets the answer of the superclass
    whatever the exit reason. *)
Theorem confirm_trade_exit_nan_profit (h : host) (m : machine) (pair : string)
    (trade : Trade) (order_type : string) (amount rate : float)
    (time_in_force exit_reason : string) (current_time : datetime) :
  PrimFloat.is_nan (calc_profit_ratio h trade rate) = true ->
  confirm_trade_exit h pair trade order_type amount rate time_in_force
    exit_reason current_time m
  = Ok (super_confirm_trade_exit h pair trade order_type amount rate time_in_force
          exit_reason current_time, m).
Proof.
  intros Hnan. unfold confirm_trade_exit. case_bool_decide; [|reflexivity].
  rewrite bind_run. unfold get_self at 1. by rewrite le_nan.
Qed.

Lemma confirm_trade_exit_nan_profit_witness :
  confirm_trade_exit nan_host "BTC/USDT" btc "limit" 1 100 "GTC" "stop_loss"
    {| minute := 0; second := 0 |} demo_machine
  = Ok (super_confirm_trade_exit nan_host "BTC/USDT" btc "limit" 1 100 "GTC"
          "stop_loss" {| minute := 0; second := 0 |}, demo_machine).
Proof.
  apply (confirm_trade_exit_nan_profit nan_host demo_machine "BTC/USDT" btc "limit"
           1 100 "GTC" "stop_loss" {| minute := 0; second := 0 |}).
  reflexivity.
Defined.

(** ** The digits for logging *)

Lemma split_on_nonempty sep s : split_on sep s <> [].
Proof.
  destruct s as [|a s]; cbn; [done|].
  destruct (Ascii.eqb a sep); [done|]. by destruct (split_on sep s).
Qed.

Lemma split_on_whole sep s : contains sep s = false -> split_on sep s = [s].
Proof.
  induction s as [|a s IH]; cbn; [done|].
  intros [Ha Hs]%orb_false_elim. rewrite Ha, IH by done. reflexivity.
Qed.

Lemma split_on_first sep a b :
  contains sep a = false ->
  split_on sep (a +:+ String sep b) = a :: split_on sep b.
Proof.
  induction a as [|c a IH]; rewrite ?append_nil_l, ?append_cons.
  - intros _. cbn [split_on]. by rewrite Ascii.eqb_refl.
  - cbn [contains split_on]. intros [Hc Ha]%orb_false_elim.
    rewrite Hc, IH by done. reflexivity.
Qed.

(** X26: on a pair [a/b] [get_round_digits] looks at what follows the
    slash: it returns 8 when that is ['BTC'] or ['ETH'] and 4 otherwise; on a
    pair without a slash it raises. *)
Theorem get_round_digits_spec (a b : string) :
  contains slash a = false ->
  contains slash b = false ->
  get_round_digits (a +:+ "/" +:+ b)
    = Some (if bool_decide (b = "BTC"%string \/ b = "ETH"%string) then 8 else 4)
  /\ get_round_digits a = None.
Proof.
  intros Ha Hb. unfold get_round_digits. split.
  - change (a +:+ "/" +:+ b) with (a +:+ String slash b).
    rewrite split_on_first, split_on_whole by done.
    change ([a; b] !! 1%nat) with (Some b). cbv beta iota. f_equal.
    rewrite (bool_decide_ext (b ∈ ["BTC"; "ETH"]%string)
               (b = "BTC"%string \/ b = "ETH"%string)); [reflexivity|].
    rewrite !elem_of_cons, elem_of_nil. tauto.
  - by rewrite split_on_whole.
Qed.

Lemma get_round_digits_spec_witness :
  get_round_digits ("ETH" +:+ "/" +:+ "BTC")
    = Some (if bool_decide ("BTC"%string = "BTC"%string \/ "BTC"%string = "ETH"%string)
            then 8 else 4)
  /\ get_round_digits "ETH" = None.
Proof.
  apply (get_round_digits_spec "ETH" "BTC").
  - reflexivity.
  - reflexivity.
Defined.

Example get_round_digits_examples :
  get_round_digits "BTC/USDT" = Some 4
  /\ get_round_digits "ETH/BTC" = Some 8
  /\ get_round_digits "ETH/BTC:BTC" = Some 4.
Proof. repeat split; reflexivity. Qed.

(** ** Refreshing a cached dataframe *)

(** X27: without a cached dataframe [refresh_data_required] always asks
    for a refresh, and it does not look at the new dataframe; with the copy
    that [cache_dataframe] has just stored of a dataframe it asks for none,
    given that the dataframe has a last candle whose date equals itself. *)
Theorem refresh_data_required_cached (now : Z) (df : ref) (pair tf : string)
    (m : machine) (c : gmap string cache_entry) (d : DataFrame) (date : value) :
  cache (self m) = Some c ->
  heap m !! df = Some d ->
  last_candle_date d = Some date ->
  value_ne date date = false ->
  (forall new_df m0, refresh_data_required None new_df m0 = Some true)
  /\ exists m1 old_df,
       cache_dataframe now df pair tf m = Ok (tt, m1)
       /\ get_dataframe_from_cache pair tf m1 = Ok (Some old_df, m1)
       /\ refresh_data_required (Some old_df) df m1 = Some false.
Proof.
  intros Hc Hd Hdate Heq. split; [reflexivity|].
  destruct (cache_dataframe_run now df pair tf m c d Hc Hd)
    as (evs & r & tf1 & Hrun & Hfresh & _ & _).
  rewrite Hrun. eexists _, r. split; [reflexivity|]. split.
  - erewrite get_dataframe_from_cache_run by reflexivity. by rewrite lookup_insert_eq.
  - unfold refresh_data_required. cbn [heap].
    rewrite lookup_insert_eq. cbn [mbind option_bind].
    assert (Hrows : exists i, nrows d = S i).
    { unfold last_candle_date in Hdate. destruct (nrows d); [done|eauto]. }
    destruct Hrows as [i Hi]. rewrite Hi. cbn [mbind option_bind].
    rewrite lookup_insert_ne by (intros ->; congruence).
    rewrite Hd. cbn [mbind option_bind]. rewrite Hi. cbn [mbind option_bind].
    rewrite Hdate. cbn [mbind option_bind]. by rewrite Heq.
Qed.

Lemma refresh_data_required_cached_witness :
  (forall new_df m0, refresh_data_required None new_df m0 = Some true)
  /\ exists m1 old_df,
       cache_dataframe 0 1%positive "BTC/USDT" "1h" dated_machine = Ok (tt, m1)
       /\ get_dataframe_from_cache "BTC/USDT" "1h" m1 = Ok (Some old_df, m1)
       /\ refresh_data_required (Some old_df) 1%positive m1 = Some false.
Proof.
  apply (refresh_data_required_cached 0 1%positive "BTC/USDT" "1h" dated_machine ∅
           dated_candles (VInt 1704070800)).
  - reflexivity.
  - reflexivity.
  - reflexivity.
  - reflexivity.
Defined.

(** ** The signal columns *)

Lemma dict_set_id {V} (k : string) (v : V) (d : dict V) :
  dict_get k d = Some v -> dict_set k v d = d.
Proof.
  induction d as [|[k' v'] d IH]; cbn; [done|].
  destruct (String.eqb k k') eqn:Hk.
  - by intros [= ->].
  - intros Hget. by rewrite IH.
Qed.

Lemma loc_set_column_id column v d :
  dict_get column (columns d) = Some (replicate (nrows d) v) ->
  loc_set_column column v d = d.
Proof.
  intros Hget. unfold loc_set_column. rewrite dict_set_id by done. by destruct d.
Qed.

(** Setting two columns, with the dataframe that results. *)
Lemma set_two_columns_result dataframe c1 c2 m d :
  heap m !! dataframe = Some d ->
  (set_column dataframe c1 (VInt 0);; set_column dataframe c2 (VInt 0);;
   mret dataframe) m
  = Ok (dataframe,
        {| self := self m;
           heap := <[dataframe := loc_set_column c2 (VInt 0)
                                    (loc_set_column c1 (VInt 0) d)]> (heap m);
           trace := trace m |}).
Proof.
  intros Hd.
  rewrite bind_run, (set_column_run _ _ _ _ d Hd).
  rewrite bind_run, (set_column_run _ _ _ _ (loc_set_column c1 (VInt 0) d))
    by (cbn; apply lookup_insert_eq).
  cbn [self heap trace]. rewrite ret_run. by rewrite insert_insert_eq.
Qed.

Lemma set_two_columns_twice c1 c2 d :
  c1 <> c2 ->
  loc_set_column c2 (VInt 0)
    (loc_set_column c1 (VInt 0)
       (loc_set_column c2 (VInt 0) (loc_set_column c1 (VInt 0) d)))
  = loc_set_column c2 (VInt 0) (loc_set_column c1 (VInt 0) d).
Proof.
  intros Hne.
  set (d' := loc_set_column c2 (VInt 0) (loc_set_column c1 (VInt 0) d)).
  assert (H1 : loc_set_column c1 (VInt 0) d' = d').
  { apply loc_set_column_id. subst d'. cbn.
    rewrite dict_get_set_ne by done. apply dict_get_set_eq. }
  rewrite H1. apply loc_set_column_id. subst d'. cbn. apply dict_get_set_eq.
Qed.

(** X28: the trend callbacks can be run again and together.  A second
    [populate_entry_trend] (or [populate_exit_trend]) on the same dataframe
    changes nothing; and after [populate_entry_trend] followed by
    [populate_exit_trend] all four signal columns are 0 in every row, the
    exit callback having left the entry columns alone. *)
Theorem populate_trends_compose (m : machine) (dataframe : ref)
    (metadata : dict string) (d : DataFrame) :
  heap m !! dataframe = Some d ->
  (exists m1,
     populate_entry_trend dataframe metadata m = Ok (dataframe, m1)
     /\ populate_entry_trend dataframe metadata m1 = Ok (dataframe, m1))
  /\ (exists m1,
        populate_exit_trend dataframe metadata m = Ok (dataframe, m1)
        /\ populate_exit_trend dataframe metadata m1 = Ok (dataframe, m1))
  /\ (exists m1 m2 d2,
        populate_entry_trend dataframe metadata m = Ok (dataframe, m1)
        /\ populate_exit_trend dataframe metadata m1 = Ok (dataframe, m2)
        /\ heap m2 !! dataframe = Some d2
        /\ nrows d2 = nrows d
        /\ forall i, (i < nrows d)%nat ->
             cell d2 "enter_long" i = Some (VInt 0)
             /\ cell d2 "enter_short" i = Some (VInt 0)
             /\ cell d2 "exit_long" i = Some (VInt 0)
             /\ cell d2 "exit_short" i = Some (VInt 0)).
Proof.
  intros Hd. unfold populate_entry_trend, populate_exit_trend.
  split; [|split].
  - rewrite (set_two_columns_result _ _ _ _ d Hd). eexists. split; [reflexivity|].
    erewrite set_two_columns_result by (cbn; apply lookup_insert_eq).
    cbn [self heap trace]. rewrite set_two_columns_twice by discriminate.
    rewrite insert_insert_eq. reflexivity.
  - rewrite (set_two_columns_result _ _ _ _ d Hd). eexists. split; [reflexivity|].
    erewrite set_two_columns_result by (cbn; apply lookup_insert_eq).
    cbn [self heap trace]. rewrite set_two_columns_twice by discriminate.
    rewrite insert_insert_eq. reflexivity.
  - rewrite (set_two_columns_result _ _ _ _ d Hd). eexists _, _, _.
    split; [reflexivity|].
    erewrite set_two_columns_result by (cbn; apply lookup_insert_eq).
    split; [reflexivity|]. cbn [self heap trace].
    split; [rewrite insert_insert_eq; apply lookup_insert_eq|].
    split; [reflexivity|].
    intros i Hi. repeat split.
    + rewrite !cell_set_ne by done. by apply cell_set_eq.
    + rewrite !cell_set_ne by done. by apply cell_set_eq.
    + rewrite cell_set_ne by done. by apply cell_set_eq.
    + by apply cell_set_eq.
Qed.

Lemma populate_trends_compose_witness :
  (exists m1,
     populate_entry_trend 1%positive [] candles_machine = Ok (1%positive, m1)
     /\ populate_entry_trend 1%positive [] m1 = Ok (1%positive, m1))
  /\ (exists m1,
        populate_exit_trend 1%positive [] candles_machine = Ok (1%positive, m1)
        /\ populate_exit_trend 1%positive [] m1 = Ok (1%positive, m1))
  /\ (exists m1 m2 d2,
        populate_entry_trend 1%positive [] candles_machine = Ok (1%positive, m1)
        /\ populate_exit_trend 1%positive [] m1 = Ok (1%positive, m2)
        /\ heap m2 !! 1%positive = Some d2
        /\ nrows d2 = nrows candles
        /\ forall i, (i < nrows candles)%nat ->
             cell d2 "enter_long" i = Some (VInt 0)
             /\ cell d2 "enter_short" i = Some (VInt 0)
             /\ cell d2 "exit_long" i = Some (VInt 0)
             /\ cell d2 "exit_short" i = Some (VInt 0)).
Proof.
  apply (populate_trends_compose candles_machine 1%positive [] candles).
  apply lookup_singleton_eq.
Defined.

(** ** The leverage of a constructed strategy *)

Lemma to_floats_inv items : forall d d',
  update_items (fun v => match to_float v with
                         | Ok x => Ok (NFloat x)
                         | Raise e => Raise e
                         end) items d = Ok d' ->
  exists lc, Forall2 converted items lc.
Proof.
  induction items as [|[k v] items IH]; intros d d' Hrun.
  - exists []. constructor.
  - cbn [update_items] in Hrun. destruct (to_float v) as [x|] eqn:Hv; [|done].
    destruct (IH _ _ Hrun) as [lc Hlc]. exists ((k, x) :: lc).
    constructor; [|done]. by split.
Qed.

Lemma init_leverage_configuration round cls cfg s :
  NoDup (dict_keys (cls_leverage_configuration cls)) ->
  __init__ round cls cfg = Ok s ->
  exists lc,
    Forall2 converted (cls_leverage_configuration cls) lc
    /\ leverage_configuration s = (fun kx => (kx.1, NFloat kx.2)) <$> lc.
Proof.
  intros Hnd Hinit. unfold __init__ in Hinit.
  destruct (update_items _ (cls_leverage_configuration cls) _) as [d'|] eqn:Hrun;
    [|done].
  destruct (to_floats_inv _ _ _ Hrun) as [lc Hlc]. exists lc. split; [done|].
  rewrite (update_items_run _ (cls_leverage_configuration cls) [] _ Hnd
             (converted_floats _ _ Hlc)) in Hrun.
  injection Hrun as <-.
  repeat match type of Hinit with
         | match ?x with _ => _ end = _ => destruct x; try discriminate
         end.
  by injection Hinit as <-.
Qed.

Lemma dict_get_converted raw lc k :
  Forall2 converted raw lc ->
  dict_get k ((fun kx : string * float => (kx.1, NFloat kx.2)) <$> lc)
  = match dict_get k raw with
    | Some v => match to_float v with Ok x => Some (NFloat x) | Raise _ => None end
    | None => None
    end.
Proof.
  induction 1 as [|[k1 v] [k2 x] raw lc [Hk Hv] _ IH]; [done|].
  cbn in Hk, Hv. subst k2. cbn. destruct (String.eqb k k1); [by rewrite Hv|exact IH].
Qed.

(** X29: after [__init__], [leverage] returns a float, whatever the class
    wrote in [leverage_configuration]: the float of the entry of
    [get_custom_pairkey(pair, side)] when the class has one, otherwise the
    float of its ['default'] entry, otherwise 1.0. *)
Theorem leverage_after_init (round : float -> Z -> float) (cls : class_attributes)
    (cfg : gmap string value) (s : strategy) (objects : gmap ref DataFrame)
    (calls : list event) (pair : string) (current_time : datetime)
    (current_rate proposed_leverage max_leverage : float) (entry_tag : option string)
    (side : string) :
  NoDup (dict_keys (cls_leverage_configuration cls)) ->
  __init__ round cls cfg = Ok s ->
  let raw := cls_leverage_configuration cls in
  let pairkey := get_custom_pairkey pair side in
  exists x m',
    leverage pair current_time current_rate proposed_leverage max_leverage entry_tag
      side {| self := s; heap := objects; trace := calls |} = Ok (NFloat x, m')
    /\ (forall v, dict_get pairkey raw = Some v -> to_float v = Ok x)
    /\ (dict_get pairkey raw = None ->
        forall v, dict_get "default" raw = Some v -> to_float v = Ok x)
    /\ (dict_get pairkey raw = None -> dict_get "default" raw = None -> x = 1%float).
Proof.
  intros Hnd Hinit raw pairkey.
  destruct (init_leverage_configuration _ _ _ _ Hnd Hinit) as (lc & Hlc & Hs).
  unfold leverage. rewrite bind_run. unfold get_self at 1. cbn [self].
  rewrite Hs. fold (get_custom_pairkey pair side). fold pairkey.
  rewrite !(dict_get_converted raw lc) by done.
  assert (Hok : forall k v, dict_get k raw = Some v -> exists x, to_float v = Ok x).
  { clear -Hlc. intros k v. fold raw in Hlc.
    induction Hlc as [|[k1 v1] [k2 x] raw lc [Hk Hv] _ IH]; [done|].
    cbn. destruct (String.eqb k k1); [|exact IH]. intros [= <-]. eauto. }
  destruct (dict_get pairkey raw) as [v|] eqn:Hkey.
  - destruct (Hok _ _ Hkey) as [x Hx]. rewrite Hx. run.
    eexists x, _. split; [reflexivity|]. repeat split; try done. by intros ? [= <-].
  - destruct (dict_get "default" raw) as [v|] eqn:Hdef.
    + destruct (Hok _ _ Hdef) as [x Hx]. rewrite Hx. run.
      eexists x, _. split; [reflexivity|]. repeat split; try done. by intros _ ? [= <-].
    + run. eexists 1%float, _. split; [reflexivity|]. done.
Qed.

Lemma leverage_after_init_witness :
  exists s,
    __init__ round_of_exact leveraged {["max_open_trades"%string := VInt 3]} = Ok s
    /\ exists x m',
         leverage "ETH/USDT" {| minute := 0; second := 0 |} 100 1 10 None "long"
           {| self := s; heap := ∅; trace := [] |} = Ok (NFloat x, m')
         /\ (forall v, dict_get (get_custom_pairkey "ETH/USDT" "long")
                         (cls_leverage_configuration leveraged) = Some v ->
                       to_float v = Ok x)
         /\ (dict_get (get_custom_pairkey "ETH/USDT" "long")
               (cls_leverage_configuration leveraged) = None ->
             forall v, dict_get "default" (cls_leverage_configuration leveraged) = Some v ->
                       to_float v = Ok x)
         /\ (dict_get (get_custom_pairkey "ETH/USDT" "long")
               (cls_leverage_configuration leveraged) = None ->
             dict_get "default" (cls_leverage_configuration leveraged) = None ->
             x = 1%float).
Proof.
  eexists. split; [reflexivity|].
  apply (leverage_after_init round_of_exact leveraged
           {["max_open_trades"%string := VInt 3]} _ ∅ [] "ETH/USDT"
           {| minute := 0; second := 0 |} 100 1 10 None "long").
  - repeat constructor; cbn; rewrite ?elem_of_cons, ?elem_of_nil; intuition discriminate.
  - reflexivity.
Defined.
